(** * The strategy control API: worker slot and log tail

    A shallow embedding of [backend/strategy_api.py]: the handlers that
    own the single worker process ([start_strategy], [start_strategy_post],
    [stop_strategy], [get_status], [health_check], [reset_strategy]) and
    the log tail [get_logs], followed by the properties proved of them. *)

From Stdlib Require Import Ascii String DecimalString.
From Stdlib Require Import List ZArith NArith Lia Bool.
Import ListNotations.

Set Implicit Arguments.

(** ** Python text *)

(** A Python [str] is a sequence of Unicode code points. *)
Definition str := list N.

Module Py.

(** An ASCII literal of the source, as code points. *)
Definition lit (s : string) : str :=
  List.map N_of_ascii (list_ascii_of_string s).

Definition eqb (a b : str) : bool :=
  if list_eq_dec N.eq_dec a b then true else false.

(** [x in [..]] for a list of strings. *)
Definition mem (x : str) (l : list str) : bool := existsb (eqb x) l.

(** [str(n)] for an integer. *)
Definition str_of_int (z : Z) : str := lit (NilZero.string_of_int (Z.to_int z)).

(** [c.isspace()]: the code points Python strips. *)
Definition isspace (c : N) : bool :=
  ((9 <=? c) && (c <=? 13) || (28 <=? c) && (c <=? 32)
   || (c =? 133) || (c =? 160) || (c =? 5760)
   || (8192 <=? c) && (c <=? 8202)
   || (c =? 8232) || (c =? 8233) || (c =? 8239) || (c =? 8287)
   || (c =? 12288))%N.

Fixpoint lstrip (s : str) : str :=
  match s with
  | c :: t => if isspace c then lstrip t else s
  | [] => []
  end.

Definition rstrip (s : str) : str := rev (lstrip (rev s)).

(** [s.strip()] *)
Definition strip (s : str) : str := rstrip (lstrip s).

(** [s.lower()] on the ASCII range and on the two other code points
    whose lowercase contains an ASCII letter (U+0130 and U+212A).  Every
    other code point is left in place: its lowercase lies outside ASCII
    as well, so comparing the result with an ASCII word gives what
    Python gives. *)
Definition lower_char (c : N) : str :=
  if ((65 <=? c) && (c <=? 90))%N then [(c + 32)%N]
  else if (c =? 304)%N then [105%N; 775%N]
  else if (c =? 8490)%N then [107%N]
  else [c].

Definition lower (s : str) : str := flat_map lower_char s.

(** [s.startswith(sep)], returning what follows the prefix. *)
Fixpoint strip_prefix (sep s : str) : option str :=
  match sep, s with
  | [], _ => Some s
  | a :: sep', b :: s' => if (a =? b)%N then strip_prefix sep' s' else None
  | _ :: _, [] => None
  end.

(** [s.partition(sep)] at the leftmost occurrence of [sep]: the text
    before it and the text after it, or [None] when [sep] does not
    occur. *)
Fixpoint partition (sep s : str) : option (str * str) :=
  match strip_prefix sep s with
  | Some rest => Some ([], rest)
  | None =>
      match s with
      | [] => None
      | c :: t =>
          match partition sep t with
          | Some (a, b) => Some (c :: a, b)
          | None => None
          end
      end
  end.

(** [sep in s] *)
Definition contains (sep s : str) : bool :=
  match partition sep s with Some _ => true | None => false end.

(** [s.split(sep, maxsplit)] for a non-empty [sep]. *)
Fixpoint split (sep : str) (maxsplit : nat) (s : str) : list str :=
  match maxsplit with
  | O => [s]
  | S k =>
      match partition sep s with
      | None => [s]
      | Some (a, rest) => a :: split sep k rest
      end
  end.

(** [s.split(sep)]: no bound on the number of cuts.  A non-empty [sep]
    is cut out at most [length s] times. *)
Definition split_all (sep s : str) : list str := split sep (length s) s.

(** What a file opened in text mode hands over: ["\r\n"] and a lone
    ["\r"] are read as ["\n"]. *)
Fixpoint universal_newlines (s : str) : str :=
  match s with
  | [] => []
  | c :: t =>
      if (c =? 13)%N then
        match t with
        | d :: t' => if (d =? 10)%N then 10%N :: universal_newlines t'
                     else 10%N :: universal_newlines t
        | [] => [10%N]
        end
      else c :: universal_newlines t
  end.

(** The lines of a text, each keeping its ["\n"]. *)
Fixpoint lines_of (s : str) : list str :=
  match s with
  | [] => []
  | c :: t =>
      if (c =? 10)%N then [c] :: lines_of t
      else match lines_of t with
           | [] => [[c]]
           | l :: ls => (c :: l) :: ls
           end
  end.

(** [f.readlines()] on the decoded contents of a text file. *)
Definition readlines (contents : str) : list str :=
  lines_of (universal_newlines contents).

(** [l[start:]] with Python's treatment of a negative or too large
    [start]. *)
Definition slice_from (A : Type) (start : Z) (l : list A) : list A :=
  let n := Z.of_nat (length l) in
  let s := if (start <? 0)%Z then Z.max 0 (start + n) else Z.min start n in
  skipn (Z.to_nat s) l.

End Py.

(** ** The operating system as the handlers see it *)

(** A [subprocess.Popen] object: [obj] tells the objects apart (two
    children may be given the same [pid] one after the other). *)
Record Popen := { obj : nat; pid : Z }.

Inductive Signal := SIGINT | SIGTERM | SIGKILL.

(** The calls a handler makes on its environment, in the order made. *)
Inductive Effect :=
| Poll (p : Popen)
| SendSignal (p : Popen) (s : Signal)
| Sleep (seconds : nat)
| Spawn (cmd : list str)
| Communicate (p : Popen) (input : str) (timeout : nat)
| PathExists (path : str)
| ReadLines (path : str)
| Print
| Strftime.

(** A raised exception: its [str(e)] and whether it is a
    [subprocess.TimeoutExpired]. *)
Record Exc := { text : str; timeout_expired : bool }.

(** What the environment answers to one call. *)
Inductive Outcome (A : Type) :=
| Returns (a : A)
| Throws (e : Exc).
Arguments Throws {A} e.

(** [active_process] is the module's global.  [live] holds the [obj] of
    every worker child that has not exited; the child of [reset_strategy]
    is no worker and is not in it.  [created] counts the [Popen] objects
    made, [clock_reads] the readings of the wall clock. *)
Record World := {
  active_process : option Popen;
  live : list nat;
  created : nat;
  clock_reads : nat;
  trace : list Effect
}.

(** The module as loaded: [active_process = None]. *)
Definition initial : World :=
  {| active_process := None; live := []; created := 0;
     clock_reads := 0; trace := [] |}.

Definition emit (e : Effect) (w : World) : World :=
  {| active_process := active_process w; live := live w;
     created := created w; clock_reads := clock_reads w;
     trace := trace w ++ [e] |}.

Definition assign_active (a : option Popen) (w : World) : World :=
  {| active_process := a; live := live w; created := created w;
     clock_reads := clock_reads w; trace := trace w |}.

(** The worker child [o] exits: by itself, on a signal, or killed from
    outside. *)
Definition worker_exits (o : nat) (w : World) : World :=
  {| active_process := active_process w;
     live := List.filter (fun x => negb (Nat.eqb x o)) (live w);
     created := created w; clock_reads := clock_reads w;
     trace := trace w |}.

Definition is_live (o : nat) (w : World) : bool := existsb (Nat.eqb o) (live w).

(** ** Handlers as computations: a world in, a value or an exception and a
    world out *)

Definition M (A : Type) : Type := World -> (A + Exc) * World.

Definition ret {A} (a : A) : M A := fun w => (inl a, w).

Definition raise {A} (e : Exc) : M A := fun w => (inr e, w).

Definition bind {A B} (m : M A) (k : A -> M B) : M B :=
  fun w => match m w with
           | (inl a, w') => k a w'
           | (inr e, w') => (inr e, w')
           end.

(** [try: m  except Exception as e: h e] *)
Definition catch {A} (m : M A) (h : Exc -> M A) : M A :=
  fun w => match m w with
           | (inl a, w') => (inl a, w')
           | (inr e, w') => h e w'
           end.

Declare Scope py_scope.
Delimit Scope py_scope with py.
Notation "x <- m ;; k" := (bind m (fun x => k))
  (at level 61, m at next level, right associativity) : py_scope.
Notation "m ;; k" := (bind m (fun _ => k))
  (at level 61, right associativity) : py_scope.
Open Scope py_scope.

Definition get_active : M (option Popen) := fun w => (inl (active_process w), w).

Definition set_active (a : option Popen) : M unit :=
  fun w => (inl tt, assign_active a w).

Definition answer {A} (o : Outcome A) : M A :=
  match o with Returns a => ret a | Throws e => raise e end.

Definition call {A} (e : Effect) (o : Outcome A) : M A :=
  fun w => answer o (emit e w).

(** [p.poll() is None] *)
Definition poll (p : Popen) : M bool :=
  fun w => (inl (is_live (obj p) w), emit (Poll p) w).

(** [p.send_signal(s)], [p.terminate()], [p.kill()].  A [SIGKILL] that is
    sent ends the child; the two other signals leave it to the child, which
    may exit during the wait that follows. *)
Definition send_signal (p : Popen) (s : Signal) (o : Outcome unit) : M unit :=
  fun w =>
    match o, s with
    | Returns _, SIGKILL => (inl tt, worker_exits (obj p) (emit (SendSignal p s) w))
    | _, _ => answer o (emit (SendSignal p s) w)
    end.

(** [time.sleep(n)], during which the child [p] exits or not. *)
Definition sleep (n : nat) (p : Popen) (exits : bool) : M unit :=
  fun w => (inl tt, let w' := emit (Sleep n) w in
                    if exits then worker_exits (obj p) w' else w').

(** [subprocess.Popen(cmd, ...)] for a worker: the child is live from its
    creation. *)
Definition popen_worker (cmd : list str) (o : Outcome Z) : M Popen :=
  fun w =>
    let w1 := emit (Spawn cmd) w in
    match o with
    | Throws e => (inr e, w1)
    | Returns n =>
        (inl {| obj := created w; pid := n |},
         {| active_process := active_process w1;
            live := created w :: live w1;
            created := S (created w);
            clock_reads := clock_reads w1;
            trace := trace w1 |})
    end.

(** [subprocess.Popen] for the child of [reset_strategy]. *)
Definition popen_other (cmd : list str) (o : Outcome Z) : M Popen :=
  fun w =>
    let w1 := emit (Spawn cmd) w in
    match o with
    | Throws e => (inr e, w1)
    | Returns n =>
        (inl {| obj := created w; pid := n |},
         {| active_process := active_process w1;
            live := live w1;
            created := S (created w);
            clock_reads := clock_reads w1;
            trace := trace w1 |})
    end.

(** [time.strftime("%Y-%m-%dT%H:%M:%S")]: the next reading of the clock. *)
Definition strftime (clock : nat -> str) : M str :=
  fun w => (inl (clock (clock_reads w)),
            {| active_process := active_process w; live := live w;
               created := created w; clock_reads := S (clock_reads w);
               trace := trace w ++ [Strftime] |}).

(** ** Values exchanged with the client *)

Inductive Level := info | warning | error | success.

(** One entry of ["logs"]: [{"timestamp": .., "level": .., "message": ..}] *)
Record LogRecord := { timestamp : str; level : Level; message : str }.

#[local] Unset Elimination Schemes.

(** A decoded JSON document, as [request.json()] hands it over.  Of a
    float the handler only looks at two things, which is what is kept:
    whether it is zero, and its [str()].  The items of an object are those
    of the [dict]: their keys are distinct. *)
Inductive JSON :=
| JNull
| JBool (b : bool)
| JInt (z : Z)
| JFloat (zero : bool) (shown : str)
| JString (s : str)
| JArray (items : list JSON)
| JObject (items : list (str * JSON)).
#[local] Set Elimination Schemes.

(** The payload of [POST /strategy/start] as the dashboard sends it, field
    by field with the types the dashboard gives them; [None] is an absent
    key. *)
Record Config := {
  selectedPairs : option (list str);
  selectedCrypto : option (list str);
  email : option str;
  password : option str;
  accountType : option str;
  positionSize : option Z;
  pairsPositionSize : option Z;
  cryptoPositionSize : option Z;
  aggressiveness : option str
}.

(** The dictionaries the handlers return, one constructor per shape. *)
Inductive Response :=
| AlreadyRunning (pid : Z)
    (* {"error": "Strategy already running", "pid": pid} *)
| Started (pid : Z) (selected_pairs : option (list str))
    (* {"message": "Strategy started successfully", "pid": pid,
        "status": "running", "selected_pairs": .. or "all_pairs"} *)
| StartedWith (pid : Z) (config : JSON)
    (* the same with "config": config *)
| SpawnFailed (e : str)
    (* {"error": "Failed to start strategy: " + e} *)
| NotRunning
    (* {"error": "No active strategy running"} *)
| Stopped
    (* {"message": "Strategy stopped successfully", "status": "stopped"} *)
| StopFailed (e : str)
    (* {"error": "Failed to stop strategy: " + e} *)
| StatusStopped
    (* {"status": "stopped"} *)
| StatusRunning (pid : Z)
    (* {"status": "running", "pid": pid} *)
| Health (strategy_running : bool) (process_info : option (option Z * bool))
    (* {"status": "healthy", "strategy_running": ..,
        "process_info": {"pid": .., "running": ..} or None} *)
| ResetBlocked
    (* {"error": "Cannot reset while strategy is running. Stop the strategy first.", ..} *)
| ResetScriptMissing
    (* {"error": "Reset script not found: reset_strategy.py", ..} *)
| ResetDone (output : str)
    (* {"success": True, "message": .., "output": output} *)
| ResetFailed (message : str) (returncode : Z)
    (* {"error": "Reset failed", "message": message, "returncode": returncode} *)
| ResetTimeout
    (* {"error": "Reset timeout", ..} *)
| ResetException (e : str)
    (* {"error": "Reset exception: " + e, ..} *)
| Logs (logs : list LogRecord)
    (* {"logs": logs} *)
| Unhandled (e : Exc).
    (* the exception left the handler *)

(** What the framework makes of a handler: its return value, or the
    exception that left it. *)
Definition respond (m : M Response) (w : World) : Response * World :=
  match m w with
  | (inl r, w') => (r, w')
  | (inr e, w') => (Unhandled e, w')
  end.

Definition truthy {A} (l : list A) : bool :=
  match l with [] => false | _ :: _ => true end.

(** ** [GET /strategy/start] *)

Definition python3_main : list str := [Py.lit "python3"; Py.lit "main.py"].

(** Lines 34-40 and 80-84: [Some r] is [return r]. *)
Definition refuse_if_running : M (option Response) :=
  a <- get_active ;;
  match a with
  | Some p =>
      alive <- poll p ;;
      if alive then ret (Some (AlreadyRunning (pid p)))
      else set_active None ;; ret None
  | None => ret None
  end.

Definition start_strategy (pairs : option str) (os_popen : Outcome Z)
  : World -> Response * World :=
  respond (
    early <- refuse_if_running ;;
    match early with
    | Some r => ret r
    | None =>
        catch
          (let selected_pairs :=
             match pairs with
             | Some s => if truthy s then Some (Py.split_all (Py.lit ",") s) else None
             | None => None
             end in
           let cmd :=
             match selected_pairs with
             | Some l => python3_main ++ [Py.lit "--pairs"] ++ l
             | None => python3_main
             end in
           process <- popen_worker cmd os_popen ;;
           set_active (Some process) ;;
           ret (Started (pid process) selected_pairs))
          (fun e => ret (SpawnFailed (text e)))
    end).

(** ** [POST /strategy/start] *)

Definition flag_list (name : string) (v : option (list str)) : list str :=
  match v with
  | Some l => if truthy l then Py.lit name :: l else []
  | None => []
  end.

Definition flag_truthy (name : string) (v : option str) : list str :=
  match v with
  | Some s => if truthy s then [Py.lit name; s] else []
  | None => []
  end.

Definition flag_present (name : string) (v : option str) : list str :=
  match v with
  | Some s => [Py.lit name; s]
  | None => []
  end.

Definition flag_number (name : string) (v : option Z) : list str :=
  match v with
  | Some z => [Py.lit name; Py.str_of_int z]
  | None => []
  end.

(** Lines 91-135: the worker's command line. *)
Definition command_of (config : Config) : list str :=
  python3_main
  ++ flag_list "--pairs" (selectedPairs config)
  ++ flag_list "--crypto" (selectedCrypto config)
  ++ flag_truthy "--email" (email config)
  ++ flag_truthy "--password" (password config)
  ++ flag_present "--account" (accountType config)
  ++ flag_number "--position-size" (positionSize config)
  ++ flag_number "--pairs-position-size" (pairsPositionSize config)
  ++ flag_number "--crypto-position-size" (cryptoPositionSize config)
  ++ flag_present "--aggressiveness" (aggressiveness config).

(** The dashboard's payload as the document it is. *)
Definition entry {A} (key : string) (to_json : A -> JSON) (v : option A)
  : list (str * JSON) :=
  match v with
  | Some x => [(Py.lit key, to_json x)]
  | None => []
  end.

Definition json_strings (l : list str) : JSON := JArray (List.map JString l).

Definition payload_of (c : Config) : JSON :=
  JObject (entry "selectedPairs" json_strings (selectedPairs c)
           ++ entry "selectedCrypto" json_strings (selectedCrypto c)
           ++ entry "email" JString (email c)
           ++ entry "password" JString (password c)
           ++ entry "accountType" JString (accountType c)
           ++ entry "positionSize" JInt (positionSize c)
           ++ entry "pairsPositionSize" JInt (pairsPositionSize c)
           ++ entry "cryptoPositionSize" JInt (cryptoPositionSize c)
           ++ entry "aggressiveness" JString (aggressiveness c)).

Coercion payload_of : Config >-> JSON.

(** What the handler does to a value that is not of the type it takes for
    granted.  Each is an exception; its wording is the interpreter's. *)
Inductive Fault :=
| NotAContainer      (* [key in 5] *)
| BadIndex           (* [[..][key]], ["text"[key]] *)
| NoSuchKey          (* [{..}[key]] without the key *)
| NotAList           (* [['--pairs'] + "EURUSD"] *)
| NotSliceable       (* [5[:3]], [{..}[:3]] *)
| NoLength           (* [len(5)] *)
| NotAString.        (* [' '.join(['--account', 5])] *)

(** [o] and then [k], when [o] returns. *)
Definition and_then {A B} (o : Outcome A) (k : A -> Outcome B) : Outcome B :=
  match o with
  | Returns a => k a
  | Throws e => Throws e
  end.

(** The truth value of a document in an [if]. *)
Definition json_truthy (v : JSON) : bool :=
  match v with
  | JNull => false
  | JBool b => b
  | JInt z => negb (z =? 0)%Z
  | JFloat zero _ => negb zero
  | JString s => truthy s
  | JArray items => truthy items
  | JObject items => truthy items
  end.

(** [' '.join(cmd)] and [Popen(cmd)] take strings only. *)
Fixpoint strings_of (cmd : list JSON) : option (list str) :=
  match cmd with
  | [] => Some []
  | JString s :: rest =>
      match strings_of rest with
      | Some l => Some (s :: l)
      | None => None
      end
  | _ :: _ => None
  end.

Section Payload.

(** The exception the interpreter raises at a fault, and the text it
    gives for a list or a dict in [str()]. *)
Variable raises : Fault -> Exc.
Variable repr : JSON -> str.

(** [str(v)] *)
Definition py_str (v : JSON) : str :=
  match v with
  | JNull => Py.lit "None"
  | JBool true => Py.lit "True"
  | JBool false => Py.lit "False"
  | JInt z => Py.str_of_int z
  | JFloat _ shown => shown
  | JString s => s
  | JArray _ | JObject _ => repr v
  end.

(** [key in config] *)
Definition has_key (key : str) (config : JSON) : Outcome bool :=
  match config with
  | JObject items => Returns (existsb (fun kv => Py.eqb (fst kv) key) items)
  | JArray items =>
      Returns (existsb (fun x => match x with
                                 | JString s => Py.eqb s key
                                 | _ => false
                                 end) items)
  | JString s => Returns (Py.contains key s)
  | JNull | JBool _ | JInt _ | JFloat _ _ => Throws (raises NotAContainer)
  end.

(** [config[key]] for a string [key]. *)
Definition getitem (key : str) (config : JSON) : Outcome JSON :=
  match config with
  | JObject items =>
      match List.find (fun kv => Py.eqb (fst kv) key) items with
      | Some kv => Returns (snd kv)
      | None => Throws (raises NoSuchKey)
      end
  | _ => Throws (raises BadIndex)
  end.

(** [if key in config:], with [config[key]] *)
Definition given (key : string) (config : JSON) : Outcome (option JSON) :=
  and_then (has_key (Py.lit key) config) (fun present =>
    if present then
      and_then (getitem (Py.lit key) config) (fun v => Returns (Some v))
    else Returns None).

(** [if key in config and config[key]:], with [config[key]] *)
Definition given_truthy (key : string) (config : JSON) : Outcome (option JSON) :=
  and_then (given key config) (fun v =>
    match v with
    | Some x => Returns (if json_truthy x then Some x else None)
    | None => Returns None
    end).

(** Lines 94-97 and 100-103: [cmd.extend([name] + config[key])]. *)
Definition add_list (name key : string) (config : JSON) : Outcome (list JSON) :=
  and_then (given_truthy key config) (fun v =>
    match v with
    | Some (JArray items) => Returns (JString (Py.lit name) :: items)
    | Some _ => Throws (raises NotAList)
    | None => Returns []
    end).

(** Lines 106-108: the value is added, and sliced for the [print]. *)
Definition add_email (config : JSON) : Outcome (list JSON) :=
  and_then (given_truthy "email" config) (fun v =>
    match v with
    | Some (JString s) => Returns [JString (Py.lit "--email"); JString s]
    | Some (JArray l) => Returns [JString (Py.lit "--email"); JArray l]
    | Some _ => Throws (raises NotSliceable)
    | None => Returns []
    end).

(** Lines 110-112: the value is added, and measured for the [print]. *)
Definition add_password (config : JSON) : Outcome (list JSON) :=
  and_then (given_truthy "password" config) (fun v =>
    match v with
    | Some (JBool _) | Some (JInt _) | Some (JFloat _ _) | Some JNull =>
        Throws (raises NoLength)
    | Some x => Returns [JString (Py.lit "--password"); x]
    | None => Returns []
    end).

(** Lines 114-116 and 133-135: the value is added as it is. *)
Definition add_present (name key : string) (config : JSON) : Outcome (list JSON) :=
  and_then (given key config) (fun v =>
    match v with
    | Some x => Returns [JString (Py.lit name); x]
    | None => Returns []
    end).

(** Lines 119-130: [str(value)] is added. *)
Definition add_number (name key : string) (config : JSON) : Outcome (list JSON) :=
  and_then (given key config) (fun v =>
    match v with
    | Some x => Returns [JString (Py.lit name); JString (py_str x)]
    | None => Returns []
    end).

(** Line 137: [' '.join(cmd)], and [cmd] as [Popen] takes it. *)
Definition joined (cmd : list JSON) : Outcome (list str) :=
  match strings_of cmd with
  | Some l => Returns l
  | None => Throws (raises NotAString)
  end.

(** Lines 91-137 without their [print] calls: the command line of any
    decoded payload, or the exception on the way. *)
Definition command_line (config : JSON) : Outcome (list str) :=
  and_then (add_list "--pairs" "selectedPairs" config) (fun pairs =>
  and_then (add_list "--crypto" "selectedCrypto" config) (fun crypto =>
  and_then (add_email config) (fun mail =>
  and_then (add_password config) (fun pass =>
  and_then (add_present "--account" "accountType" config) (fun account =>
  and_then (add_number "--position-size" "positionSize" config) (fun size =>
  and_then (add_number "--pairs-position-size" "pairsPositionSize" config)
    (fun pairs_size =>
  and_then (add_number "--crypto-position-size" "cryptoPositionSize" config)
    (fun crypto_size =>
  and_then (add_present "--aggressiveness" "aggressiveness" config)
    (fun aggressive =>
  joined (List.map JString python3_main ++ pairs ++ crypto ++ mail ++ pass
          ++ account ++ size ++ pairs_size ++ crypto_size ++ aggressive)
  ))))))))).

End Payload.

(** [request_json] answers [await request.json()] and [post_popen] the
    [Popen] call.  [post_console] answers the [print] calls of the [try]
    block, each by the line it stands on (89, 97, 103, 108, 112, 116, 121,
    126, 130, 135 and 137); [except_console] answers the [print] of line
    156.  [post_raises] and [post_repr] are the interpreter's. *)
Record StartPostEnv := {
  request_json : Outcome JSON;
  post_console : nat -> Outcome unit;
  except_console : Outcome unit;
  post_raises : Fault -> Exc;
  post_repr : JSON -> str;
  post_popen : Outcome Z
}.

(** One [if] block of lines 94-135.  What the block adds to [cmd] and the
    text of its [print] are worked out first, and raise on a value of
    another type; the block was entered exactly when something is added,
    and then it prints. *)
Definition block (console : Outcome unit) (added : Outcome (list JSON))
  : M (list JSON) :=
  ext <- answer added ;;
  match ext with
  | [] => ret []
  | _ :: _ => call Print console ;; ret ext
  end.

(** Lines 89-137: the command line is put together, with the [print]
    calls on the way. *)
Definition build_command (env : StartPostEnv) (config : JSON) : M (list str) :=
  let raises := post_raises env in
  let console := post_console env in
  call Print (console 89) ;;
  pairs <- block (console 97) (add_list raises "--pairs" "selectedPairs" config) ;;
  crypto <- block (console 103)
              (add_list raises "--crypto" "selectedCrypto" config) ;;
  mail <- block (console 108) (add_email raises config) ;;
  pass <- block (console 112) (add_password raises config) ;;
  account <- block (console 116)
               (add_present raises "--account" "accountType" config) ;;
  size <- block (console 121)
            (add_number raises (post_repr env) "--position-size"
               "positionSize" config) ;;
  pairs_size <- block (console 126)
                  (add_number raises (post_repr env) "--pairs-position-size"
                     "pairsPositionSize" config) ;;
  crypto_size <- block (console 130)
                   (add_number raises (post_repr env) "--crypto-position-size"
                      "cryptoPositionSize" config) ;;
  aggressive <- block (console 135)
                  (add_present raises "--aggressiveness" "aggressiveness"
                     config) ;;
  cmd <- answer (joined raises
                   (List.map JString python3_main ++ pairs ++ crypto ++ mail
                    ++ pass ++ account ++ size ++ pairs_size ++ crypto_size
                    ++ aggressive)) ;;
  call Print (console 137) ;;
  ret cmd.

(** Lines 86-157: the handler from its [await] on. *)
Definition start_post_body (env : StartPostEnv) : M Response :=
  catch
    (config <- answer (request_json env) ;;
     cmd <- build_command env config ;;
     process <- popen_worker cmd (post_popen env) ;;
     set_active (Some process) ;;
     ret (StartedWith (pid process) config))
    (fun e =>
       call Print (except_console env) ;;
       ret (SpawnFailed (text e))).

Definition start_strategy_post (env : StartPostEnv) : World -> Response * World :=
  respond (
    early <- refuse_if_running ;;
    match early with
    | Some r => ret r
    | None => start_post_body env
    end).

(** ** [GET /strategy/stop] *)

Record StopEnv := {
  on_sigint : Outcome unit;
  exits_within_2s : bool;
  on_terminate : Outcome unit;
  exits_within_1s : bool;
  on_kill : Outcome unit
}.

Definition stop_strategy (env : StopEnv) : World -> Response * World :=
  respond (
    a <- get_active ;;
    match a with
    | None => ret NotRunning
    | Some p =>
        catch
          (send_signal p SIGINT (on_sigint env) ;;
           sleep 2 p (exits_within_2s env) ;;
           alive <- poll p ;;
           (if alive then
              send_signal p SIGTERM (on_terminate env) ;;
              sleep 1 p (exits_within_1s env) ;;
              still <- poll p ;;
              if still then send_signal p SIGKILL (on_kill env) else ret tt
            else ret tt) ;;
           set_active None ;;
           ret Stopped)
          (fun e => ret (StopFailed (text e)))
    end).

(** ** [GET /strategy/status] *)

Definition get_status : World -> Response * World :=
  respond (
    a <- get_active ;;
    match a with
    | None => ret StatusStopped
    | Some p =>
        alive <- poll p ;;
        if alive then ret (StatusRunning (pid p))
        else set_active None ;; ret StatusStopped
    end).

(** ** [GET /health] *)

(** The handler probes the child up to three times; [exits_before = Some k]
    lets the child exit just before probe [k] (0, 1 or 2). *)
Definition probe (exits_before : option nat) (k : nat) (p : Popen) : M bool :=
  fun w =>
    poll p (match exits_before with
            | Some j => if Nat.eqb j k then worker_exits (obj p) w else w
            | None => w
            end).

Definition health_check (exits_before : option nat) : World -> Response * World :=
  respond (
    a <- get_active ;;
    match a with
    | None => ret (Health false None)
    | Some p =>
        strategy_running <- probe exits_before 0 p ;;
        pid_alive <- probe exits_before 1 p ;;
        running <- probe exits_before 2 p ;;
        ret (Health strategy_running
               (Some (if pid_alive then Some (pid p) else None, running)))
    end).

(** ** [GET /strategy/reset] *)

Definition reset_script : str := Py.lit "reset_strategy.py".

Definition auto_input : str := [115; 10; 115; 10]%N.

(** [reset_exists] answers [os.path.exists], [reset_popen] the [Popen]
    call, [reset_communicate] the [communicate] call with
    [(stdout, stderr, returncode)]. *)
Record ResetEnv := {
  reset_exists : bool;
  reset_popen : Outcome Z;
  reset_communicate : Outcome (str * str * Z)
}.

Definition reset_strategy (env : ResetEnv) : World -> Response * World :=
  respond (
    catch
      (a <- get_active ;;
       blocked <- match a with
                  | Some p => poll p
                  | None => ret false
                  end ;;
       if blocked then ret ResetBlocked
       else
         found <- call (PathExists reset_script) (Returns (reset_exists env)) ;;
         if negb found then ret ResetScriptMissing
         else
           reset_process <- popen_other [Py.lit "python3"; reset_script]
                                        (reset_popen env) ;;
           out <- call (Communicate reset_process auto_input 30)
                       (reset_communicate env) ;;
           let '(stdout, stderr, returncode) := out in
           if (returncode =? 0)%Z then
             ret (ResetDone (if truthy stdout then Py.strip stdout
                             else Py.lit "Reset completado"))
           else
             ret (ResetFailed
                    (Py.lit "Error en el proceso de reset: "
                     ++ (if truthy stderr then stderr
                         else Py.lit "Error desconocido"))
                    returncode))
      (fun e =>
         if timeout_expired e then ret ResetTimeout
         else ret (ResetException (text e)))).

(** ** [GET /strategy/logs] *)

Definition log_file : str := Py.lit "iqoption_strategy.log".

Definition separator : str := Py.lit " | ".

(** Lines 319-328. *)
Definition map_level (token : str) : Level :=
  if Py.mem token [Py.lit "info"; Py.lit "debug"] then info
  else if Py.mem token [Py.lit "warn"; Py.lit "warning"] then warning
  else if Py.mem token [Py.lit "err"; Py.lit "error"] then error
  else if Py.mem token [Py.lit "critical"] then error
  else info.

(** [lines[-limit:] if len(lines) > limit else lines] *)
Definition recent_lines (limit : Z) (lines : list str) : list str :=
  if (Z.of_nat (length lines) >? limit)%Z then Py.slice_from (- limit) lines
  else lines.

(** [log_exists] answers [os.path.exists], [log_read] opening the file
    and [readlines] with the decoded contents, [log_console] the [print]
    of line 362. *)
Record LogsEnv := {
  log_exists : bool;
  log_read : Outcome str;
  log_console : Outcome unit
}.

Section LogTail.

Variable clock : nat -> str.

(** The record for a line taken as it is (lines 337-341, 344-348 and
    351-355). *)
Definition raw_record (line : str) : M LogRecord :=
  now <- strftime clock ;;
  ret {| timestamp := now; level := info; message := line |}.

(** Lines 311-348, the body of the inner [try], on a stripped line. *)
Definition parse_try (line : str) (logs : list LogRecord) : M (list LogRecord) :=
  if Py.contains separator line then
    match Py.split separator 2 line with
    | timestamp_str :: token :: rest :: _ =>
        ret (logs ++ [{| timestamp := timestamp_str;
                         level := map_level (Py.lower token);
                         message := rest |}])
    | _ => r <- raw_record line ;; ret (logs ++ [r])
    end
  else r <- raw_record line ;; ret (logs ++ [r]).

(** Lines 349-355. *)
Definition parse_except (line : str) (logs : list LogRecord) (e : Exc)
  : M (list LogRecord) :=
  r <- raw_record line ;; ret (logs ++ [r]).

(** Lines 307-355: one turn of the loop. *)
Definition parse_line (raw : str) (logs : list LogRecord) : M (list LogRecord) :=
  let line := Py.strip raw in
  if truthy line then catch (parse_try line logs) (parse_except line logs)
  else ret logs.

(** Lines 306-355. *)
Fixpoint parse_lines (lines : list str) (logs : list LogRecord)
  : M (list LogRecord) :=
  match lines with
  | [] => ret logs
  | raw :: rest => logs' <- parse_line raw logs ;; parse_lines rest logs'
  end.

(** Lines 367-383. *)
Definition running_logs (p : Popen) : M (list LogRecord) :=
  t1 <- strftime clock ;;
  t2 <- strftime clock ;;
  t3 <- strftime clock ;;
  ret [ {| timestamp := t1; level := success;
           message := [65533%N] ++ Py.lit " Algorithm ejecut" ++ [225%N]
                      ++ Py.lit "ndose (PID: " ++ Py.str_of_int (pid p)
                      ++ Py.lit ")" |};
        {| timestamp := t2; level := info;
           message := [129518%N]
                      ++ Py.lit " Analizando mercados con algoritmos educacionales..." |};
        {| timestamp := t3; level := info;
           message := [128200%N]
                      ++ Py.lit " Monitoreando oportunidades educacionales de trading..." |} ].

(** Lines 386-402. *)
Definition idle_logs : M (list LogRecord) :=
  t1 <- strftime clock ;;
  t2 <- strftime clock ;;
  t3 <- strftime clock ;;
  ret [ {| timestamp := t1; level := info;
           message := [65533%N]
                      ++ Py.lit " Sistema Educacional InverseNeural Lab listo para iniciar" |};
        {| timestamp := t2; level := info;
           message := [9881%N; 65039%N] ++ Py.lit " Configure los par" ++ [225%N]
                      ++ Py.lit "metros y presione 'Activar Algoritmo'" |};
        {| timestamp := t3; level := success;
           message := [9989%N]
                      ++ Py.lit " Plataforma educacional inicializada correctamente" |} ].

(** Lines 299-362: [Some r] is [return r]. *)
Definition tail_file (limit : Z) (env : LogsEnv) : M (option Response) :=
  catch
    (contents <- call (ReadLines log_file) (log_read env) ;;
     let lines := Py.readlines contents in
     logs <- parse_lines (recent_lines limit lines) [] ;;
     if truthy logs then ret (Some (Logs logs)) else ret None)
    (fun file_error => call Print (log_console env) ;; ret None).

(** Lines 364-404: the state of the system when the file gave nothing. *)
Definition system_logs : M Response :=
  a <- get_active ;;
  match a with
  | Some p =>
      alive <- poll p ;;
      logs <- (if alive then running_logs p else idle_logs) ;;
      ret (Logs logs)
  | None => logs <- idle_logs ;; ret (Logs logs)
  end.

(** Lines 294-404, the body of the outer [try]. *)
Definition get_logs_try (limit : Z) (env : LogsEnv) : M Response :=
  found <- call (PathExists log_file) (Returns (log_exists env)) ;;
  early <- (if found then tail_file limit env else ret None) ;;
  match early with
  | Some r => ret r
  | None => system_logs
  end.

(** Lines 406-415. *)
Definition get_logs_except (e : Exc) : M Response :=
  now <- strftime clock ;;
  ret (Logs [ {| timestamp := now; level := error;
                 message := [10060%N] ++ Py.lit " Error obteniendo logs: "
                            ++ text e |} ]).

Definition get_logs (limit : Z) (env : LogsEnv) : World -> Response * World :=
  respond (catch (get_logs_try limit env) get_logs_except).

End LogTail.

(** ** Sequences of requests *)

(** A request together with what the environment answers while it is
    served. *)
Inductive Request :=
| GetStart (pairs : option str) (os_popen : Outcome Z)
| PostStart (env : StartPostEnv)
| GetStop (env : StopEnv)
| GetStatus
| GetHealth (exits_before : option nat)
| GetReset (env : ResetEnv)
| GetLogs (clock : nat -> str) (limit : Z) (env : LogsEnv).

Definition handle (r : Request) : World -> Response * World :=
  match r with
  | GetStart pairs os_popen => start_strategy pairs os_popen
  | PostStart env => start_strategy_post env
  | GetStop env => stop_strategy env
  | GetStatus => get_status
  | GetHealth exits_before => health_check exits_before
  | GetReset env => reset_strategy env
  | GetLogs clock limit env => get_logs clock limit env
  end.

(** The handlers are coroutines of one event loop.  The only place where
    one of them gives way to the others is the [await request.json()] of
    [start_strategy_post] (line 88), which waits for the body of the
    request; it stands after the check of the slot (lines 80-84) and before
    [Popen] (line 139).  [time.sleep] does not give way.

    The service between two turns of the loop: the world, and the number
    of [start_strategy_post] handlers waiting at their [await]. *)
Record Server := { world : World; awaiting : nat }.

Definition at_rest (w : World) : Server := {| world := w; awaiting := 0 |}.

(** A [POST /strategy/start] comes in: lines 80-84 are run, and unless it
    is refused the handler waits for its body. *)
Definition post_arrives (s : Server) : Server :=
  match refuse_if_running (world s) with
  | (inl None, w') => {| world := w'; awaiting := S (awaiting s) |}
  | (_, w') => {| world := w'; awaiting := awaiting s |}
  end.

(** The body of a waiting request has come: lines 88-157 are run. *)
Definition post_resumes (env : StartPostEnv) (s : Server) : Server :=
  {| world := snd (respond (start_post_body env) (world s));
     awaiting := pred (awaiting s) |}.

(** One turn of the service: a request served to its end (for a
    [start_strategy_post], its body was there already), a
    [start_strategy_post] run up to its [await], a waiting one run from its
    [await] on, or a worker child exiting. *)
Inductive step : Server -> Server -> Prop :=
| step_request (r : Request) (s : Server) :
    step s {| world := snd (handle r (world s)); awaiting := awaiting s |}
| step_arrives (s : Server) : step s (post_arrives s)
| step_resumes (env : StartPostEnv) (s : Server) :
    0 < awaiting s -> step s (post_resumes env s)
| step_exit (o : nat) (s : Server) :
    step s {| world := worker_exits o (world s); awaiting := awaiting s |}.

Inductive reachable : Server -> Prop :=
| reachable_initial : reachable (at_rest initial)
| reachable_step (s s' : Server) : reachable s -> step s s' -> reachable s'.

(** The turns in which no request is served while another waits: every
    request is served to its end. *)
Inductive serial_step : World -> World -> Prop :=
| serial_request (r : Request) (w : World) : serial_step w (snd (handle r w))
| serial_exit (o : nat) (w : World) : serial_step w (worker_exits o w).

Inductive serially_reachable : World -> Prop :=
| serially_initial : serially_reachable initial
| serially_step (w w' : World) :
    serially_reachable w -> serial_step w w' -> serially_reachable w'.

(** The worker children that are live and not in [active_process]. *)
Definition strays (w : World) : list nat :=
  List.filter
    (fun o => match active_process w with
              | Some p => negb (Nat.eqb o (obj p))
              | None => true
              end)
    (live w).

(** ** What the specification calls things *)

(** The child is still live after the first wait of [stop_strategy], and
    after the second. *)
Definition alive_after_2s (env : StopEnv) (p : Popen) (w : World) : bool :=
  is_live (obj p) w && negb (exits_within_2s env).

Definition alive_after_1s (env : StopEnv) (p : Popen) (w : World) : bool :=
  alive_after_2s env p w && negb (exits_within_1s env).

(** The escalation of the specification: interrupt, wait 2, and while the
    child is still alive terminate, wait 1, kill. *)
Definition escalation (env : StopEnv) (p : Popen) (w : World) : list Effect :=
  [SendSignal p SIGINT; Sleep 2; Poll p]
  ++ (if alive_after_2s env p w then
        [SendSignal p SIGTERM; Sleep 1; Poll p]
        ++ (if alive_after_1s env p w then [SendSignal p SIGKILL] else [])
      else []).

(** The first signalling step of the escalation that raises, if any. *)
Definition signalling_error (env : StopEnv) (p : Popen) (w : World) : option Exc :=
  match on_sigint env with
  | Throws e => Some e
  | Returns _ =>
      if alive_after_2s env p w then
        match on_terminate env with
        | Throws e => Some e
        | Returns _ =>
            if alive_after_1s env p w then
              match on_kill env with
              | Throws e => Some e
              | Returns _ => None
              end
            else None
        end
      else None
  end.

(** The level mapping in the words of the specification: the token is
    compared without regard to case. *)
Definition same_word (token : str) (word : string) : bool :=
  Py.eqb (Py.lower token) (Py.lit word).

Definition level_by_spec (token : str) : Level :=
  if same_word token "info" || same_word token "debug" then info
  else if same_word token "warn" || same_word token "warning" then warning
  else if same_word token "err" || same_word token "error"
          || same_word token "critical" then error
  else info.

(** The same mapping with the comparison written out, letter by letter:
    a character of the token stands for the letter [d] of a word of the
    table when it is [d] or the capital of [d]. *)
Definition same_letter (c d : N) : bool :=
  ((c =? d) || ((65 <=? c) && (c <=? 90) && (c + 32 =? d)))%N.

Fixpoint caseless (token word : str) : bool :=
  match token, word with
  | [], [] => true
  | c :: token', d :: word' => same_letter c d && caseless token' word'
  | _, _ => false
  end.

Definition names (token : str) (word : string) : bool :=
  caseless token (Py.lit word).

Definition level_by_table (token : str) : Level :=
  if names token "info" || names token "debug" then info
  else if names token "warn" || names token "warning" then warning
  else if names token "err" || names token "error"
          || names token "critical" then error
  else info.

(** A word of small letters without [k], the one letter another code
    point (U+212A) is lowered to. *)
Definition small_letters (word : str) : Prop :=
  Forall (fun d => (97 <= d <= 122)%N /\ d <> 107%N) word.

(** A line that is empty once stripped. *)
Definition blank (raw : str) : Prop := Py.strip raw = [].

Definition nonblank (raw : str) : bool := truthy (Py.strip raw).

(** The levels of the three records made up when the file gives none. *)
Definition placeholder_levels (w : World) : list Level :=
  match active_process w with
  | Some p => if is_live (obj p) w then [success; info; info]
              else [info; info; success]
  | None => [info; info; success]
  end.

(** The worker slot as the specification sees it: who is in it and which
    workers are live. *)
Definition slot_state (w : World) : option Popen * list nat :=
  (active_process w, live w).

(** No live worker outside the slot: the live workers are none, or the
    one in the slot. *)
Definition tidy (w : World) : Prop :=
  live w = []
  \/ exists p, active_process w = Some p /\ live w = [obj p]
               /\ obj p < created w.

(** Serving a request in [w] made a worker child that is live in [w']:
    the [Popen] object numbered [created w]. *)
Definition spawned_worker (w w' : World) : Prop := In (created w) (live w').

Definition is_start (r : Request) : Prop :=
  match r with
  | GetStart _ _ | PostStart _ => True
  | _ => False
  end.

(** [w'] has the slot and the workers of [w], and no fewer [Popen]
    objects. *)
Definition undisturbed (w w' : World) : Prop :=
  slot_state w' = slot_state w /\ created w <= created w'.

(** A computation that leaves the slot and the workers alone. *)
Definition quiet {A} (m : M A) : Prop :=
  forall w, undisturbed w (snd (m w)).

(** ** Worlds and environments of the examples *)

(** A worker was started. *)
Definition started_world : World :=
  snd (start_strategy None (Returns 42%Z) initial).

(** It has exited since, unnoticed. *)
Definition stale_world : World := worker_exits 0 started_world.

(** A clock for the examples: reading [k] is ["2024-06-01T12:00:k"]. *)
Definition sample_clock (k : nat) : str :=
  Py.lit "2024-06-01T12:00:" ++ Py.str_of_int (Z.of_nat k).

(** The two-line file of the specification's example. *)
Definition two_line_file : str :=
  Py.lit "2024-01-01T00:00:00 | INFO | hello" ++ [10%N]
  ++ Py.lit "garbage line" ++ [10%N].

Definition file_holds (contents : str) : LogsEnv :=
  {| log_exists := true; log_read := Returns contents;
     log_console := Returns tt |}.

Definition no_file : LogsEnv :=
  {| log_exists := false; log_read := Throws {| text := []; timeout_expired := false |};
     log_console := Returns tt |}.

(** The file cannot be read and the console cannot be written. *)
Definition all_fails : LogsEnv :=
  {| log_exists := true;
     log_read := Throws {| text := Py.lit "Permission denied"; timeout_expired := false |};
     log_console := Throws {| text := Py.lit "Broken pipe"; timeout_expired := false |} |}.

(** A file of three blank lines. *)
Definition blank_file : str := [10; 32; 9; 10; 32; 10]%N.

Definition structured_line : str :=
  Py.lit "2024-01-01T00:00:00 | INFO | hello" ++ [10%N].

(** The worker of [started_world]. *)
Definition first_worker : Popen := {| obj := 0; pid := 42 |}.

(** A child that takes every signal and does not exit before the kill. *)
Definition stubborn_child : StopEnv :=
  {| on_sigint := Returns tt; exits_within_2s := false;
     on_terminate := Returns tt; exits_within_1s := false;
     on_kill := Returns tt |}.

(** The interrupt cannot be sent. *)
Definition signal_denied : StopEnv :=
  {| on_sigint := Throws {| text := Py.lit "Operation not permitted";
                            timeout_expired := false |};
     exits_within_2s := false;
     on_terminate := Returns tt; exits_within_1s := false;
     on_kill := Returns tt |}.

(** An interpreter for the examples. *)
Definition sample_raises (f : Fault) : Exc :=
  {| text :=
       match f with
       | NotAContainer => Py.lit "argument of type 'int' is not iterable"
       | BadIndex => Py.lit "list indices must be integers or slices, not str"
       | NoSuchKey => Py.lit "'selectedPairs'"
       | NotAList => Py.lit "can only concatenate list (not 'str') to list"
       | NotSliceable => Py.lit "'int' object is not subscriptable"
       | NoLength => Py.lit "object of type 'int' has no len()"
       | NotAString => Py.lit "sequence item 3: expected str instance, int found"
       end;
     timeout_expired := false |}.

Definition sample_repr (v : JSON) : str :=
  match v with
  | JArray [] => Py.lit "[]"
  | JObject [] => Py.lit "{}"
  | _ => Py.lit "[...]"
  end.

Definition empty_post : StartPostEnv :=
  {| request_json :=
       Returns
         (payload_of
            {| selectedPairs := None; selectedCrypto := None; email := None;
               password := None; accountType := None; positionSize := None;
               pairsPositionSize := None; cryptoPositionSize := None;
               aggressiveness := None |});
     post_console := fun _ => Returns tt;
     except_console := Returns tt;
     post_raises := sample_raises;
     post_repr := sample_repr;
     post_popen := Returns 43%Z |}.

Definition reset_succeeds : ResetEnv :=
  {| reset_exists := true; reset_popen := Returns 7%Z;
     reset_communicate := Returns ([], [], 0%Z) |}.

(** A [start_strategy_post] waits for its body on the empty slot, a
    [start_strategy] is served, and the waiting handler goes on. *)
Definition overlapped : Server :=
  post_resumes empty_post
    {| world := snd (start_strategy None (Returns 42%Z)
                       (world (post_arrives (at_rest initial))));
       awaiting := awaiting (post_arrives (at_rest initial)) |}.

(** A payload [v] comes decoded, the [print] calls and [Popen] work. *)
Definition post_of (v : JSON) : StartPostEnv :=
  {| request_json := Returns v;
     post_console := fun _ => Returns tt;
     except_console := Returns tt;
     post_raises := sample_raises;
     post_repr := sample_repr;
     post_popen := Returns 43%Z |}.

(** The e-mail holds a lone surrogate (U+DC80): the [print] of line 108,
    which writes its first characters, fails to encode it, and the other
    [print] calls work. *)
Definition unprintable_email : StartPostEnv :=
  {| request_json :=
       Returns (JObject [(Py.lit "email",
                          JString (56448%N :: Py.lit "@example.org"))]);
     post_console :=
       fun line =>
         if Nat.eqb line 108 then
           Throws {| text := Py.lit "surrogates not allowed";
                     timeout_expired := false |}
         else Returns tt;
     except_console := Returns tt;
     post_raises := sample_raises;
     post_repr := sample_repr;
     post_popen := Returns 43%Z |}.

(** The lines of the [print] calls of the [try] block. *)
Definition try_prints : list nat :=
  [89; 97; 103; 108; 112; 116; 121; 126; 130; 135; 137].

(** One of the [print] calls of the [try] block raises [x]. *)
Definition print_raises (env : StartPostEnv) (x : Exc) : Prop :=
  exists line, In line try_prints /\ post_console env line = Throws x.

(** The [try] of [start_strategy_post] raises [x] before it comes to
    [Popen]: at [request.json()], at a [print], or at the handling of the
    payload. *)
Definition raised_before_popen (env : StartPostEnv) (x : Exc) : Prop :=
  request_json env = Throws x
  \/ exists payload,
       request_json env = Returns payload
       /\ (print_raises env x
           \/ command_line (post_raises env) (post_repr env) payload
              = Throws x).

(** The world after [k] calls of [print]. *)
Definition prints (k : nat) (w : World) : World := Nat.iter k (emit Print) w.

(** The number of [print] calls a flag makes: one when it is given. *)
Definition said (flag : list str) : nat := if truthy flag then 1 else 0.

(** The [print] calls of lines 89-137 for a payload of the dashboard. *)
Definition announced (config : Config) : nat :=
  1
  + said (flag_list "--pairs" (selectedPairs config))
  + said (flag_list "--crypto" (selectedCrypto config))
  + said (flag_truthy "--email" (email config))
  + said (flag_truthy "--password" (password config))
  + said (flag_present "--account" (accountType config))
  + said (flag_number "--position-size" (positionSize config))
  + said (flag_number "--pairs-position-size" (pairsPositionSize config))
  + said (flag_number "--crypto-position-size" (cryptoPositionSize config))
  + said (flag_present "--aggressiveness" (aggressiveness config))
  + 1.

(** The computation [m] does what [o] tells, with [print] calls on the way
    and nothing else: it returns what [o] returns, and raises what [o]
    raises or what one of the [print] calls of [env] raises. *)
Definition follows {A} (env : StartPostEnv) (m : M A) (o : Outcome A) : Prop :=
  forall w, exists k,
    match m w with
    | (inl a, w') => o = Returns a /\ w' = prints k w
    | (inr x, w') =>
        w' = prints k w /\ (o = Throws x \/ print_raises env x)
    end.

(** A computation that raises whatever it is given. *)
Definition raising {A} (m : M A) : Prop :=
  forall w, exists x w', m w = (inr x, w').

(** ** Names for the further properties *)

(** [sep.join(parts)] *)
Fixpoint join (sep : str) (parts : list str) : str :=
  match parts with
  | [] => []
  | [a] => a
  | a :: rest => a ++ sep ++ join sep rest
  end.

(** [c in s] for one character. *)
Definition has_char (c : N) (s : str) : bool := existsb (N.eqb c) s.

(** [s] is free of [sep]. *)
Definition free_of (sep s : str) : Prop := forall x y, s <> x ++ sep ++ y.

(** The six dictionaries [reset_strategy] returns. *)
Definition is_reset_answer (r : Response) : Prop :=
  match r with
  | ResetBlocked | ResetScriptMissing | ResetDone _ | ResetFailed _ _
  | ResetTimeout | ResetException _ => True
  | _ => False
  end.

Definition is_signal (e : Effect) : bool :=
  match e with SendSignal _ _ => true | _ => false end.

Definition is_spawn (e : Effect) : bool :=
  match e with Spawn _ => true | _ => false end.

(** The worker in the slot is live. *)
Definition occupant_live (w : World) : bool :=
  match active_process w with
  | Some p => is_live (obj p) w
  | None => false
  end.

(** A line as the worker writes it: ["TIMESTAMP | LEVEL | MESSAGE\n"]. *)
Definition written_line (ts token msg : str) : str :=
  ts ++ separator ++ token ++ separator ++ msg ++ [10%N].

(** [s] starts with a character that is no white space. *)
Definition starts_solid (s : str) : Prop :=
  exists c t, s = c :: t /\ Py.isspace c = false.

(** [s] ends with a character that is no white space. *)
Definition ends_solid (s : str) : Prop :=
  exists t c, s = t ++ [c] /\ Py.isspace c = false.

(** The record [r] was made of the line [raw]: its message is the end of
    the stripped line, and its level is not the one kept for the made-up
    records. *)
Definition from_line (raw : str) (r : LogRecord) : Prop :=
  (exists before, Py.strip raw = before ++ message r) /\ level r <> success.


(** The file is there and cannot be read; the console works. *)
Definition unreadable : LogsEnv :=
  {| log_exists := true;
     log_read := Throws {| text := Py.lit "Permission denied"; timeout_expired := false |};
     log_console := Returns tt |}.

(** The seconds spent in [time.sleep] along a trace. *)
Fixpoint seconds_slept (t : list Effect) : nat :=
  match t with
  | [] => 0
  | Sleep n :: rest => n + seconds_slept rest
  | _ :: rest => seconds_slept rest
  end.

(** A line written with an empty message. *)
Definition dangling_line : str :=
  written_line (Py.lit "2024-01-01T00:00:00") (Py.lit "ERROR") [].


(** * Properties *)

(** ** Worlds after an effect *)

Lemma active_emit (e : Effect) (w : World) :
  active_process (emit e w) = active_process w.
Proof. reflexivity. Qed.

Lemma live_emit (e : Effect) (w : World) : live (emit e w) = live w.
Proof. reflexivity. Qed.

Lemma trace_emit (e : Effect) (w : World) : trace (emit e w) = trace w ++ [e].
Proof. reflexivity. Qed.

Lemma active_exits (o : nat) (w : World) :
  active_process (worker_exits o w) = active_process w.
Proof. reflexivity. Qed.

Lemma trace_exits (o : nat) (w : World) : trace (worker_exits o w) = trace w.
Proof. reflexivity. Qed.

Lemma active_assign (a : option Popen) (w : World) :
  active_process (assign_active a w) = a.
Proof. reflexivity. Qed.

Lemma live_assign (a : option Popen) (w : World) :
  live (assign_active a w) = live w.
Proof. reflexivity. Qed.

Lemma trace_assign (a : option Popen) (w : World) :
  trace (assign_active a w) = trace w.
Proof. reflexivity. Qed.

Lemma is_live_emit (o : nat) (e : Effect) (w : World) :
  is_live o (emit e w) = is_live o w.
Proof. reflexivity. Qed.

Lemma is_live_assign (o : nat) (a : option Popen) (w : World) :
  is_live o (assign_active a w) = is_live o w.
Proof. reflexivity. Qed.

Lemma is_live_exits (o : nat) (w : World) :
  is_live o (worker_exits o w) = false.
Proof.
  unfold is_live, worker_exits; cbn [live].
  induction (live w) as [|x l IH]; [reflexivity|].
  cbn [List.filter]. destruct (Nat.eqb x o) eqn:E; cbn [negb]; [exact IH|].
  cbn [existsb]. rewrite Nat.eqb_sym, E. exact IH.
Qed.

Lemma is_live_exits_dead (o o' : nat) (w : World) :
  is_live o w = false -> is_live o (worker_exits o' w) = false.
Proof.
  unfold is_live, worker_exits; cbn [live].
  induction (live w) as [|x l IH]; [reflexivity|].
  cbn [existsb List.filter]. intros H. apply orb_false_iff in H as [Hx Hl].
  destruct (negb (Nat.eqb x o')); cbn [existsb]; [rewrite Hx|]; auto.
Qed.

Create Rewrite HintDb world.
#[local] Hint Rewrite active_emit live_emit trace_emit active_exits trace_exits
  active_assign live_assign trace_assign is_live_emit is_live_assign
  is_live_exits : world.
#[local] Hint Rewrite <- app_assoc : world.

(** Unfold the plumbing of a handler, keeping the worlds as they are
    built. *)
Ltac run :=
  repeat (progress (
    unfold respond, refuse_if_running, catch, bind, ret, raise, call, answer,
      get_active, set_active, poll, probe, send_signal, sleep in *;
    cbn [fst snd] in * )).

Lemma active_popen_worker (cmd : list str) (o : Outcome Z) (w : World) :
  active_process (snd (popen_worker cmd o w)) = active_process w.
Proof. destruct o; reflexivity. Qed.

Lemma trace_popen_worker (cmd : list str) (o : Outcome Z) (w : World) :
  trace (snd (popen_worker cmd o w)) = trace w ++ [Spawn cmd].
Proof. destruct o; reflexivity. Qed.

Lemma active_popen_other (cmd : list str) (o : Outcome Z) (w : World) :
  active_process (snd (popen_other cmd o w)) = active_process w.
Proof. destruct o; reflexivity. Qed.

Lemma live_popen_other (cmd : list str) (o : Outcome Z) (w : World) :
  live (snd (popen_other cmd o w)) = live w.
Proof. destruct o; reflexivity. Qed.

Ltac settle :=
  repeat (progress (run; autorewrite with world in *; cbn [fst snd app] in * ));
  try reflexivity; try discriminate; try congruence.

(** ** Stopping *)

(** C2.  With a worker in the slot, [stop_strategy] makes exactly the
    calls of the escalation, in its order; when none of the signalling
    calls raises it empties the slot and answers [Stopped], and when one
    raises it answers [StopFailed] and leaves the slot as it was. *)
Theorem stop_strategy_escalates (env : StopEnv) (w : World) (p : Popen) :
  active_process w = Some p ->
  (signalling_error env p w = None ->
     fst (stop_strategy env w) = Stopped
     /\ active_process (snd (stop_strategy env w)) = None
     /\ trace (snd (stop_strategy env w)) = trace w ++ escalation env p w
     /\ is_live (obj p) (snd (stop_strategy env w)) = false)
  /\ (forall e, signalling_error env p w = Some e ->
        fst (stop_strategy env w) = StopFailed (text e)
        /\ active_process (snd (stop_strategy env w)) = active_process w).
Proof.
  intros Hp.
  unfold stop_strategy, signalling_error, escalation, alive_after_1s, alive_after_2s.
  run. rewrite Hp.
  destruct env as [o1 x2 o2 x1 o3]; cbn [on_sigint exits_within_2s on_terminate
                                          exits_within_1s on_kill].
  destruct (is_live (obj p) w) eqn:L;
    destruct o1 as [[]|e1]; destruct x2; destruct o2 as [[]|e2]; destruct x1;
    destruct o3 as [[]|e3]; cbn [andb negb];
    repeat (progress (settle; rewrite ?L, ?(is_live_exits_dead _ _ L)));
    (split; [intros E|intros e E]); try discriminate E;
    try (injection E as <-); repeat split; settle.
Qed.

(** ** The dashboard's payload *)

Lemma strings_of_strings (l : list str) : strings_of (List.map JString l) = Some l.
Proof. induction l as [|a l IH]; cbn; [|rewrite IH]; reflexivity. Qed.

Section TypedPayload.

Variable raises : Fault -> Exc.
Variable repr : JSON -> str.
Variable c : Config.

Ltac by_fields :=
  destruct c as [[sp|] [sc|] [em|] [pw|] [at_|] [ps|] [pps|] [cps|] [ag|]].

Lemma add_pairs_typed :
  add_list raises "--pairs" "selectedPairs" (payload_of c)
  = Returns (List.map JString (flag_list "--pairs" (selectedPairs c))).
Proof. by_fields; try destruct sp; reflexivity. Qed.

Lemma add_crypto_typed :
  add_list raises "--crypto" "selectedCrypto" (payload_of c)
  = Returns (List.map JString (flag_list "--crypto" (selectedCrypto c))).
Proof. by_fields; try destruct sc; reflexivity. Qed.

Lemma add_email_typed :
  add_email raises (payload_of c)
  = Returns (List.map JString (flag_truthy "--email" (email c))).
Proof. by_fields; try destruct em; reflexivity. Qed.

Lemma add_password_typed :
  add_password raises (payload_of c)
  = Returns (List.map JString (flag_truthy "--password" (password c))).
Proof. by_fields; try destruct pw; reflexivity. Qed.

Lemma add_account_typed :
  add_present raises "--account" "accountType" (payload_of c)
  = Returns (List.map JString (flag_present "--account" (accountType c))).
Proof. by_fields; reflexivity. Qed.

Lemma add_size_typed :
  add_number raises repr "--position-size" "positionSize" (payload_of c)
  = Returns (List.map JString (flag_number "--position-size" (positionSize c))).
Proof. by_fields; reflexivity. Qed.

Lemma add_pairs_size_typed :
  add_number raises repr "--pairs-position-size" "pairsPositionSize" (payload_of c)
  = Returns (List.map JString
               (flag_number "--pairs-position-size" (pairsPositionSize c))).
Proof. by_fields; reflexivity. Qed.

Lemma add_crypto_size_typed :
  add_number raises repr "--crypto-position-size" "cryptoPositionSize"
    (payload_of c)
  = Returns (List.map JString
               (flag_number "--crypto-position-size" (cryptoPositionSize c))).
Proof. by_fields; reflexivity. Qed.

Lemma add_aggressiveness_typed :
  add_present raises "--aggressiveness" "aggressiveness" (payload_of c)
  = Returns (List.map JString (flag_present "--aggressiveness" (aggressiveness c))).
Proof. by_fields; reflexivity. Qed.


End TypedPayload.

(** ** The prints of the [try] *)

Lemma prints_prints (j k : nat) (w : World) :
  prints j (prints k w) = prints (j + k) w.
Proof. unfold prints. now rewrite Nat.iter_add. Qed.

Lemma active_prints (k : nat) (w : World) :
  active_process (prints k w) = active_process w.
Proof. induction k; cbn; auto. Qed.

Lemma live_prints (k : nat) (w : World) : live (prints k w) = live w.
Proof. induction k; cbn; auto. Qed.

Lemma created_prints (k : nat) (w : World) : created (prints k w) = created w.
Proof. induction k; cbn; auto. Qed.

Lemma clock_prints (k : nat) (w : World) :
  clock_reads (prints k w) = clock_reads w.
Proof. induction k; cbn; auto. Qed.

Lemma trace_prints (k : nat) (w : World) :
  trace (prints k w) = trace w ++ repeat Print k.
Proof.
  induction k as [|k IH].
  - cbn. now rewrite app_nil_r.
  - change (prints (S k) w) with (emit Print (prints k w)).
    cbn [emit trace repeat]. rewrite IH, <- app_assoc, <- repeat_cons.
    reflexivity.
Qed.


Lemma is_live_prints (o k : nat) (w : World) :
  is_live o (prints k w) = is_live o w.
Proof. unfold is_live. now rewrite live_prints. Qed.

Lemma block_typed (flag : list str) (w : World) :
  block (Returns tt) (Returns (List.map JString flag)) w
  = (inl (List.map JString flag), prints (said flag) w).
Proof. destruct flag; reflexivity. Qed.

Lemma bind_returns {A B} (m : M A) (k : A -> M B) (a : A) (w w' : World) :
  m w = (inl a, w') -> bind m k w = k a w'.
Proof. unfold bind. now intros ->. Qed.

(** On a payload of the dashboard's types and with a working console,
    lines 89-137 give [command_of] after the prints of the flags given. *)
Lemma build_command_typed (env : StartPostEnv) (c : Config) (w : World) :
  (forall line, post_console env line = Returns tt) ->
  build_command env (payload_of c) w
  = (inl (command_of c), prints (announced c) w).
Proof.
  intros P. unfold build_command. cbv zeta.
  rewrite !P, add_pairs_typed, add_crypto_typed, add_email_typed,
    add_password_typed, add_account_typed, add_size_typed,
    add_pairs_size_typed, add_crypto_size_typed, add_aggressiveness_typed.
  unfold bind at 1. unfold call at 1. cbn [answer ret].
  change (emit Print w) with (prints 1 w).
  repeat (erewrite bind_returns by apply block_typed).
  unfold joined. rewrite <- !map_app, strings_of_strings.
  fold (command_of c). run. cbn [answer ret].
  change (emit Print ?x) with (prints 1 x).
  rewrite !prints_prints. f_equal. f_equal. unfold announced. lia.
Qed.

Section Follows.

Variable env : StartPostEnv.

Lemma follows_answer {A} (o : Outcome A) : follows env (answer o) o.
Proof. intros w. exists 0. destruct o; cbn; auto. Qed.

Lemma follows_bind {A B} (m : M A) (k : A -> M B) (o : Outcome A)
  (f : A -> Outcome B) :
  follows env m o -> (forall a, follows env (k a) (f a)) ->
  follows env (bind m k) (and_then o f).
Proof.
  intros Hm Hk w. destruct (Hm w) as [k1 H]. unfold bind.
  destruct (m w) as [[a|x] w'].
  - destruct H as [-> ->]. destruct (Hk a (prints k1 w)) as [k2 H2].
    exists (k2 + k1). cbn [and_then]. rewrite <- prints_prints. exact H2.
  - destruct H as [-> [->|L]]; exists k1; cbn [and_then]; auto.
Qed.

Lemma follows_after_print {A} (line : nat) (m : M A) (o : Outcome A) :
  In line try_prints ->
  follows env m o ->
  follows env (bind (call Print (post_console env line)) (fun _ => m)) o.
Proof.
  intros I Hm w. unfold bind, call.
  destruct (post_console env line) as [[]|x] eqn:C; cbn [answer ret raise].
  - destruct (Hm (emit Print w)) as [k H]. exists (k + 1).
    rewrite <- prints_prints. exact H.
  - exists 1. split; [reflexivity|]. right. exists line. auto.
Qed.

Lemma follows_then_print {A} (line : nat) (m : M A) (o : Outcome A) :
  In line try_prints ->
  follows env m o ->
  follows env (bind m (fun a => bind (call Print (post_console env line))
                                (fun _ => ret a))) o.
Proof.
  intros I Hm w. destruct (Hm w) as [k H]. unfold bind at 1.
  destruct (m w) as [[a|x] w'].
  - destruct H as [-> ->]. unfold bind, call.
    destruct (post_console env line) as [[]|x] eqn:C; cbn [answer ret raise];
      exists (1 + k); rewrite <- prints_prints; [auto|].
    split; [reflexivity|]. right. exists line. auto.
  - exists k. exact H.
Qed.

Lemma follows_block (line : nat) (added : Outcome (list JSON)) :
  In line try_prints ->
  follows env (block (post_console env line) added) added.
Proof.
  intros I w. unfold block, bind.
  destruct added as [[|a l]|x]; cbn [answer ret raise].
  - exists 0. auto.
  - unfold call. destruct (post_console env line) as [[]|x] eqn:C;
      cbn [answer ret raise]; exists 1; [auto|].
    split; [reflexivity|]. right. exists line. auto.
  - exists 0. auto.
Qed.

Ltac listed := cbn; repeat first [left; reflexivity | right].

(** Lines 89-137 give the command line of the payload, or raise what its
    handling or one of the prints raises; they do nothing but print. *)
Lemma follows_build_command (config : JSON) :
  follows env (build_command env config)
    (command_line (post_raises env) (post_repr env) config).
Proof.
  unfold build_command, command_line. cbv zeta.
  apply follows_after_print; [listed|].
  repeat (apply follows_bind; [apply follows_block; listed|intros ?]).
  apply follows_then_print; [listed|apply follows_answer].
Qed.

Lemma raising_bind {A B} (m : M A) (k : A -> M B) :
  (forall a, raising (k a)) -> raising (bind m k).
Proof.
  intros Hk w. unfold bind. destruct (m w) as [[a|x] w']; [apply Hk|eauto].
Qed.

(** When lines 89-137 return, the first and the last [print] have
    returned. *)
Lemma build_command_printed (config : JSON) (cmd : list str) (w w' : World) :
  build_command env config w = (inl cmd, w') ->
  post_console env 89 = Returns tt /\ post_console env 137 = Returns tt.
Proof.
  intros B. split.
  - destruct (post_console env 89) as [[]|x] eqn:C; [reflexivity|].
    unfold build_command in B. cbv zeta in B. rewrite C in B. discriminate B.
  - destruct (post_console env 137) as [[]|x] eqn:C; [reflexivity|].
    assert (R : raising (build_command env config)).
    { unfold build_command. cbv zeta. rewrite C.
      do 11 (apply raising_bind; intros ?).
      intros w0. unfold bind, call. cbn. eauto. }
    destruct (R w) as (y & w1 & E). congruence.
Qed.

End Follows.

(** What the handler does from its [await] on: it starts the worker, or
    raises before it comes to [Popen], or [Popen] raises. *)
Lemma start_post_body_cases (env : StartPostEnv) (w : World) :
  exists k,
    (exists payload cmd n,
       request_json env = Returns payload
       /\ command_line (post_raises env) (post_repr env) payload = Returns cmd
       /\ post_console env 89 = Returns tt
       /\ post_console env 137 = Returns tt
       /\ post_popen env = Returns n
       /\ respond (start_post_body env) w
          = (StartedWith n payload,
             assign_active (Some {| obj := created w; pid := n |})
               (snd (popen_worker cmd (Returns n) (prints k w)))))
    \/ (exists x,
          raised_before_popen env x
          /\ respond (start_post_body env) w
             = (match except_console env with
                | Returns _ => SpawnFailed (text x)
                | Throws y => Unhandled y
                end, emit Print (prints k w)))
    \/ (exists x payload cmd,
          request_json env = Returns payload
          /\ command_line (post_raises env) (post_repr env) payload = Returns cmd
          /\ post_popen env = Throws x
          /\ respond (start_post_body env) w
             = (match except_console env with
                | Returns _ => SpawnFailed (text x)
                | Throws y => Unhandled y
                end, emit Print (emit (Spawn cmd) (prints k w)))).
Proof.
  unfold start_post_body, raised_before_popen. run.
  destruct (request_json env) as [payload|x] eqn:J; run.
  - destruct (follows_build_command env payload w) as [k F].
    destruct (build_command env payload w) as [[cmd|x] w1] eqn:B.
    + destruct F as [C ->]. destruct (build_command_printed _ _ _ B) as [P1 P2].
      exists k. destruct (post_popen env) as [n|x] eqn:P.
      * left. exists payload, cmd, n.
        repeat (split; [assumption || reflexivity|]).
        unfold popen_worker. cbn [fst snd pid].
        rewrite created_prints. reflexivity.
      * right. right. exists x, payload, cmd.
        repeat (split; [assumption || reflexivity|]).
        unfold popen_worker. cbn [fst snd].
        destruct (except_console env); reflexivity.
    + destruct F as [-> F]. exists k. right. left. exists x. split.
      * right. exists payload. split; [reflexivity|]. tauto.
      * destruct (except_console env); reflexivity.
  - exists 0. right. left. exists x. split; [auto|].
    destruct (except_console env); reflexivity.
Qed.

(** ** Starting *)

(** [start_strategy_post] is the check of lines 80-84 and then, unless it
    refuses, the handler from its [await] on. *)
Lemma start_strategy_post_cases (env : StartPostEnv) (w : World) :
  start_strategy_post env w
  = match active_process w with
    | Some p =>
        if is_live (obj p) w then (AlreadyRunning (pid p), emit (Poll p) w)
        else respond (start_post_body env) (assign_active None (emit (Poll p) w))
    | None => respond (start_post_body env) w
    end.
Proof.
  unfold start_strategy_post, respond, refuse_if_running, bind, get_active,
    poll, set_active, ret.
  destruct (active_process w) as [p|]; [destruct (is_live (obj p) w)|];
    reflexivity.
Qed.

(** C3.  With a worker in the slot that the probe finds live, both start
    handlers answer [AlreadyRunning] with its pid and do nothing but the
    probe: no [Popen], the slot and the live workers as they were.  When
    the probe finds it exited, they go on as from the emptied slot and call
    [Popen]; the child so made is put in the slot. *)
Theorem start_refused_while_running (w : World) (p : Popen) :
  active_process w = Some p ->
  (is_live (obj p) w = true ->
     (forall pairs os_popen,
        start_strategy pairs os_popen w = (AlreadyRunning (pid p), emit (Poll p) w))
     /\ (forall env,
          start_strategy_post env w = (AlreadyRunning (pid p), emit (Poll p) w)))
  /\ (is_live (obj p) w = false ->
      let cleared := assign_active None (emit (Poll p) w) in
      (forall pairs os_popen,
         start_strategy pairs os_popen w = start_strategy pairs os_popen cleared
         /\ (exists cmd, trace (snd (start_strategy pairs os_popen w))
                         = trace w ++ [Poll p; Spawn cmd])
         /\ (forall n, os_popen = Returns n ->
               active_process (snd (start_strategy pairs os_popen w))
               = Some {| obj := created w; pid := n |}))
      /\ (forall env,
           start_strategy_post env w = start_strategy_post env cleared
           /\ (forall config : Config,
                 request_json env = Returns (payload_of config) ->
                 (forall line, post_console env line = Returns tt) ->
                 (exists more,
                    trace (snd (start_strategy_post env w))
                    = trace w ++ [Poll p] ++ repeat Print (announced config)
                      ++ [Spawn (command_of config)] ++ more)
                 /\ (forall n, post_popen env = Returns n ->
                       active_process (snd (start_strategy_post env w))
                       = Some {| obj := created w; pid := n |})))).
Proof.
  intros Hp. split; intros L.
  - split; intros; unfold start_strategy, start_strategy_post; run;
      rewrite Hp, L; reflexivity.
  - cbn zeta. split.
    + intros pairs os_popen.
      unfold start_strategy; run; autorewrite with world; rewrite Hp, L; run.
      split; [reflexivity|]. split.
      * eexists. destruct os_popen; unfold popen_worker; cbn; settle.
      * intros n ->. reflexivity.
    + intros env.
      unfold start_strategy_post, start_post_body; run; autorewrite with world;
        rewrite Hp, L; run.
      split; [reflexivity|]. intros config -> P. run.
      rewrite (build_command_typed _ config _ P). split.
      * destruct (post_popen env); [|destruct (except_console env)];
          unfold popen_worker; cbn [fst snd trace emit assign_active];
          rewrite trace_prints; cbn [trace emit assign_active];
          rewrite <- !app_assoc; cbn [app];
          [exists []|exists [Print]..]; reflexivity.
      * intros n ->. unfold popen_worker. cbn [fst snd active_process
          assign_active pid]. rewrite created_prints. reflexivity.
Qed.

(** ** Computations that leave the slot alone *)

Lemma undisturbed_refl (w : World) : undisturbed w w.
Proof. split; [reflexivity|lia]. Qed.

Lemma undisturbed_trans (w1 w2 w3 : World) :
  undisturbed w1 w2 -> undisturbed w2 w3 -> undisturbed w1 w3.
Proof. intros [E1 L1] [E2 L2]. split; [congruence|lia]. Qed.

Lemma quiet_ret {A} (a : A) : quiet (ret a).
Proof. intros w; apply undisturbed_refl. Qed.

Lemma quiet_raise {A} (e : Exc) : quiet (@raise A e).
Proof. intros w; apply undisturbed_refl. Qed.

Lemma quiet_bind {A B} (m : M A) (k : A -> M B) :
  quiet m -> (forall a, quiet (k a)) -> quiet (bind m k).
Proof.
  intros Hm Hk w. unfold bind. specialize (Hm w).
  destruct (m w) as [[a|e] w']; cbn [snd] in *; [|exact Hm].
  exact (undisturbed_trans Hm (Hk a w')).
Qed.

Lemma quiet_catch {A} (m : M A) (h : Exc -> M A) :
  quiet m -> (forall e, quiet (h e)) -> quiet (catch m h).
Proof.
  intros Hm Hh w. unfold catch. specialize (Hm w).
  destruct (m w) as [[a|e] w']; cbn [snd] in *; [exact Hm|].
  exact (undisturbed_trans Hm (Hh e w')).
Qed.

Ltac still := intros w; split; [reflexivity|cbn; lia].

Lemma quiet_answer {A} (o : Outcome A) : quiet (answer o).
Proof. destruct o; still. Qed.

Lemma quiet_call {A} (e : Effect) (o : Outcome A) : quiet (call e o).
Proof. destruct o; still. Qed.

Lemma quiet_poll (p : Popen) : quiet (poll p).
Proof. still. Qed.

Lemma quiet_get_active : quiet get_active.
Proof. still. Qed.

Lemma quiet_strftime (clock : nat -> str) : quiet (strftime clock).
Proof. still. Qed.

Lemma quiet_popen_other (cmd : list str) (o : Outcome Z) :
  quiet (popen_other cmd o).
Proof. destruct o; still. Qed.

Lemma quiet_if {A} (b : bool) (m1 m2 : M A) :
  quiet m1 -> quiet m2 -> quiet (if b then m1 else m2).
Proof. destruct b; auto. Qed.

Lemma quiet_respond (m : M Response) (w : World) :
  quiet m -> undisturbed w (snd (respond m w)).
Proof.
  intros Hm. unfold respond. specialize (Hm w).
  destruct (m w) as [[r|e] w']; exact Hm.
Qed.

Create HintDb quiet.
#[local] Hint Resolve quiet_ret quiet_raise quiet_answer quiet_call quiet_poll
  quiet_get_active quiet_strftime quiet_popen_other : quiet.

Ltac quiet :=
  repeat first
    [ apply quiet_bind; [|intros ?]
    | apply quiet_catch; [|intros ?]
    | apply quiet_if
    | solve [auto with quiet]
    | match goal with
      | |- quiet (match ?x with _ => _ end) => destruct x
      end ].

Lemma quiet_raw_record (clock : nat -> str) (line : str) :
  quiet (raw_record clock line).
Proof. unfold raw_record. quiet. Qed.

Lemma quiet_parse_line (clock : nat -> str) (raw : str) (logs : list LogRecord) :
  quiet (parse_line clock raw logs).
Proof.
  pose proof (quiet_raw_record clock) as R.
  unfold parse_line, parse_try, parse_except. quiet.
Qed.

Lemma quiet_parse_lines (clock : nat -> str) (lines : list str) :
  forall logs, quiet (parse_lines clock lines logs).
Proof.
  induction lines as [|raw rest IH]; intros logs; cbn [parse_lines].
  - apply quiet_ret.
  - apply quiet_bind; [apply quiet_parse_line|exact IH].
Qed.

Lemma get_logs_undisturbed (clock : nat -> str) (limit : Z) (env : LogsEnv)
  (w : World) :
  undisturbed w (snd (get_logs clock limit env w)).
Proof.
  pose proof (quiet_parse_lines clock) as P.
  unfold get_logs. apply quiet_respond.
  unfold get_logs_try, get_logs_except, tail_file, system_logs,
    running_logs, idle_logs.
  quiet.
Qed.

(** ** Resetting *)

Lemma reset_strategy_undisturbed (env : ResetEnv) (w : World) :
  undisturbed w (snd (reset_strategy env w)).
Proof. unfold reset_strategy. apply quiet_respond. quiet. Qed.

(** C5, as the code has it.  While the worker in the slot is live,
    [reset_strategy] answers [ResetBlocked] having done nothing but probe
    it: no look at the file system, no child.  Whatever it answers, the
    slot and the workers are as before.  With a worker in the slot that has
    exited it is not blocked: after the probe it looks for the script and
    goes on call for call as it does from the empty slot, with the same
    answer. *)
Theorem reset_blocked_while_alive (env : ResetEnv) (w : World) :
  (forall p, active_process w = Some p -> is_live (obj p) w = true ->
     reset_strategy env w = (ResetBlocked, emit (Poll p) w))
  /\ slot_state (snd (reset_strategy env w)) = slot_state w
  /\ (forall p, active_process w = Some p -> is_live (obj p) w = false ->
        fst (reset_strategy env w) <> ResetBlocked
        /\ fst (reset_strategy env w)
           = fst (reset_strategy env (assign_active None w))
        /\ exists done,
             trace (snd (reset_strategy env (assign_active None w)))
             = trace w ++ PathExists reset_script :: done
             /\ trace (snd (reset_strategy env w))
                = trace w ++ Poll p :: PathExists reset_script :: done).
Proof.
  split; [|split].
  - intros p Hp L. unfold reset_strategy. run. rewrite Hp, L. reflexivity.
  - apply reset_strategy_undisturbed.
  - intros p Hp L. unfold reset_strategy. run.
    cbn [assign_active active_process]. rewrite Hp, L.
    destruct env as [found [n|[t1 [|]]] [[[so se] rc]|[t2 [|]]]];
      cbn [reset_exists reset_popen reset_communicate];
      destruct found; try destruct (rc =? 0)%Z;
      run; unfold popen_other; cbn -[reset_script auto_input Py.lit Py.strip];
      (split; [discriminate|]); (split; [reflexivity|]);
      rewrite <- ?app_assoc; cbn [app];
      eexists; split; reflexivity.
Qed.

(** C5 as stated fails: with a worker in the slot that has exited, the
    slot is not empty, and [reset_strategy] runs the maintenance command
    and answers with its success. *)
Lemma reset_runs_beside_exited_worker :
  reachable (at_rest stale_world)
  /\ active_process stale_world = Some {| obj := 0; pid := 42 |}
  /\ fst (reset_strategy reset_succeeds stale_world)
     = ResetDone (Py.lit "Reset completado")
  /\ trace (snd (reset_strategy reset_succeeds stale_world))
     = trace stale_world
       ++ [Poll {| obj := 0; pid := 42 |};
           PathExists reset_script;
           Spawn [Py.lit "python3"; reset_script];
           Communicate {| obj := 1; pid := 7 |} auto_input 30].
Proof.
  split; [|repeat split].
  apply (@reachable_step (at_rest started_world)); [|apply (step_exit 0)].
  apply (@reachable_step (at_rest initial)); [apply reachable_initial|].
  apply (step_request (GetStart None (Returns 42%Z))).
Qed.

(** ** Health *)

(** C9.  [health_check] never assigns the slot.  When its first probe
    finds the worker exited it reports it as not running and without pid,
    and the worker stays in the slot: it takes a [get_status] (or a start)
    to empty it. *)
Theorem health_check_keeps_slot (exits_before : option nat) (w : World) :
  active_process (snd (health_check exits_before w)) = active_process w
  /\ (forall p, active_process w = Some p ->
        is_live (obj p) w = false \/ exits_before = Some 0 ->
        fst (health_check exits_before w) = Health false (Some (None, false))
        /\ active_process (snd (health_check exits_before w)) = Some p
        /\ active_process (snd (get_status (snd (health_check exits_before w))))
           = None).
Proof.
  assert (K : active_process (snd (health_check exits_before w)) = active_process w).
  { unfold health_check. run.
    destruct (active_process w) as [p|] eqn:Hp; [|exact Hp].
    destruct exits_before as [[|[|[|k]]]|]; cbn [Nat.eqb]; settle. }
  split; [exact K|].
  intros p Hp H. rewrite K. split; [|split; [exact Hp|]].
  - unfold health_check. run. rewrite Hp.
    destruct H as [L| ->].
    + destruct exits_before as [[|[|[|k]]]|]; cbn [Nat.eqb]; settle;
        rewrite ?L, ?(is_live_exits_dead _ _ L); reflexivity.
    + cbn [Nat.eqb]. settle.
  - unfold get_status. run. rewrite K, Hp.
    assert (D : is_live (obj p) (snd (health_check exits_before w)) = false).
    { unfold health_check. run. rewrite Hp.
      destruct H as [L| ->].
      - destruct exits_before as [[|[|[|k]]]|]; cbn [Nat.eqb]; settle;
          rewrite ?L, ?(is_live_exits_dead _ _ L); reflexivity.
      - cbn [Nat.eqb]. settle. }
    rewrite D. reflexivity.
Qed.

(** ** At most one live worker *)

Lemma tidy_undisturbed (w w' : World) :
  undisturbed w w' -> tidy w -> tidy w'.
Proof.
  unfold undisturbed, slot_state, tidy.
  intros [[= Ha Hl] Hc] [E|(p & Hp & E & B)].
  - left; congruence.
  - right; exists p; repeat split; try congruence. lia.
Qed.

Lemma tidy_worker_exits (o : nat) (w : World) : tidy w -> tidy (worker_exits o w).
Proof.
  unfold tidy. intros [E|(p & Hp & E & B)]; cbn [live worker_exits]; rewrite E.
  - left; reflexivity.
  - cbn [List.filter]. destruct (negb (Nat.eqb (obj p) o)); [right|left; reflexivity].
    exists p; auto.
Qed.

Ltac tidy_goal :=
  first [ left; reflexivity
        | right; eexists; repeat split; cbn; lia ].

Ltac spawn_goal :=
  let S := fresh "S" in
  intros S; cbn in S;
  first [ contradiction
        | exfalso; destruct S as [S|[]]; lia
        | repeat split; auto;
          first [ left; reflexivity
                | right; eexists; split; reflexivity ] ].

Ltac compute_world :=
  repeat (progress (cbn; rewrite ?Nat.eqb_refl)).

Ltac by_cases w T :=
  let B := fresh "B" in
  destruct w as [a l c n t]; unfold tidy in T; cbn in T;
  destruct T as [->|(p & -> & -> & B)];
  [destruct a as [p|]|].

(** What one request does to a tidy world. *)
Lemma handle_tidy (r : Request) (w : World) :
  tidy w ->
  tidy (snd (handle r w))
  /\ (spawned_worker w (snd (handle r w)) ->
      is_start r
      /\ (active_process w = None
          \/ exists p, active_process w = Some p /\ is_live (obj p) w = false)
      /\ live (snd (handle r w)) = [created w]).
Proof.
  intros T. destruct r as [pairs o|env|env| |k|env|clock limit env];
    cbn [handle is_start].
  - by_cases w T; unfold start_strategy, spawned_worker, tidy; run;
      destruct o as [z|e]; compute_world; (split; [tidy_goal|spawn_goal]).
  - rewrite start_strategy_post_cases.
    by_cases w T; cbn [active_process is_live live obj existsb];
      rewrite ?Nat.eqb_refl; cbn [orb];
      try (cbn; split; [tidy_goal|spawn_goal]);
      match goal with
      | |- context [respond (start_post_body env) ?W] =>
          destruct (start_post_body_cases env W)
            as [k [(payload & cmd & z & _ & _ & _ & _ & _ & E)
                  |[(x & _ & E)|(x & payload & cmd & _ & _ & _ & E)]]];
          rewrite E; clear E
      end;
      unfold popen_worker, spawned_worker, tidy;
      cbn [fst snd active_process live created assign_active emit obj];
      rewrite ?live_prints, ?created_prints, ?active_prints;
      compute_world; (split; [tidy_goal|spawn_goal]).
  - by_cases w T; unfold stop_strategy, spawned_worker, tidy; run;
      destruct env as [[[]|e1] x2 [[]|e2] x1 [[]|e3]]; destruct x2, x1;
      compute_world; (split; [tidy_goal|spawn_goal]).
  - by_cases w T; unfold get_status, spawned_worker, tidy; run;
      compute_world; (split; [tidy_goal|spawn_goal]).
  - by_cases w T; unfold health_check, spawned_worker, tidy; run;
      destruct k as [[|[|[|k]]]|]; compute_world; (split; [tidy_goal|spawn_goal]).
  - pose proof (reset_strategy_undisturbed env w) as U.
    split; [exact (tidy_undisturbed U T)|].
    unfold spawned_worker. destruct U as [[= Ha Hl] Hc]. rewrite Hl.
    destruct T as [E|(p & Hp & E & B)]; rewrite E; cbn; [tauto|lia].
  - pose proof (get_logs_undisturbed clock limit env w) as U.
    split; [exact (tidy_undisturbed U T)|].
    unfold spawned_worker. destruct U as [[= Ha Hl] Hc]. rewrite Hl.
    destruct T as [E|(p & Hp & E & B)]; rewrite E; cbn; [tauto|lia].
Qed.

Lemma serially_reachable_tidy (w : World) : serially_reachable w -> tidy w.
Proof.
  induction 1 as [|w w' _ IH S].
  - left; reflexivity.
  - destruct S as [r w|o w].
    + apply handle_tidy, IH.
    + apply tidy_worker_exits, IH.
Qed.

Lemma tidy_at_most_one (w : World) :
  tidy w -> length (live w) <= 1 /\ strays w = [].
Proof.
  unfold strays. intros [E|(p & Hp & E & _)]; rewrite E.
  - split; [cbn; lia|reflexivity].
  - rewrite Hp. cbn. rewrite Nat.eqb_refl. split; [lia|reflexivity].
Qed.

(** As long as every request is served to its end before the next one is
    taken up, at most one worker is live and it is the one in the slot; a
    request then leaves a new live worker only if it is a start, served
    with the slot empty or with its occupant probed as exited. *)
Lemma one_live_worker_when_serial (w : World) :
  serially_reachable w ->
  (length (live w) <= 1 /\ strays w = [])
  /\ (forall r, spawned_worker w (snd (handle r w)) ->
        is_start r
        /\ (active_process w = None
            \/ exists p, active_process w = Some p /\ is_live (obj p) w = false)
        /\ live (snd (handle r w)) = [created w]).
Proof.
  intros R. apply serially_reachable_tidy in R. split.
  - apply tidy_at_most_one, R.
  - intros r. apply handle_tidy, R.
Qed.

(** C1 at two starts that overlap.  A [POST /strategy/start] comes in on
    the empty slot, passes the check of lines 80-84 and waits for its body
    at line 88.  A [GET /strategy/start] is served meanwhile and starts the
    worker of pid 42.  The body comes, and the waiting handler goes on to
    [Popen] without looking at the slot again: the worker of pid 43 takes
    the slot, and the first worker is live outside of it.  Two workers are
    live at once. *)
Theorem overlapping_starts_leave_two_workers :
  reachable overlapped
  /\ awaiting overlapped = 0
  /\ active_process (world overlapped) = Some {| obj := 1; pid := 43 |}
  /\ live (world overlapped) = [1; 0]
  /\ strays (world overlapped) = [0]
  /\ trace (world overlapped)
     = [Spawn python3_main; Print; Print; Spawn python3_main].
Proof.
  split; [|repeat split].
  unfold overlapped.
  eapply reachable_step; [|apply step_resumes; cbn; lia].
  eapply reachable_step;
    [|apply (step_request (GetStart None (Returns 42%Z))
               (post_arrives (at_rest initial)))].
  eapply reachable_step; [apply reachable_initial|apply step_arrives].
Qed.

(** ** The log tail, line by line *)

Lemma truthy_nil_iff {A} (l : list A) : truthy l = false <-> l = [].
Proof. destruct l; cbn; split; congruence. Qed.

Lemma parse_line_blank (clock : nat -> str) (raw : str) (logs : list LogRecord)
  (w : World) :
  blank raw -> parse_line clock raw logs w = (inl logs, w).
Proof. unfold blank, parse_line. intros ->. reflexivity. Qed.

(** A line that is not blank gives exactly one record, and the inner [try]
    never raises. *)
Lemma parse_line_record (clock : nat -> str) (raw : str) (logs : list LogRecord)
  (w : World) :
  ~ blank raw ->
  exists r w', parse_line clock raw logs w = (inl (logs ++ [r]), w').
Proof.
  unfold blank, parse_line, parse_try, parse_except, raw_record. intros NB.
  destruct (Py.strip raw) as [|c line] eqn:E; [contradiction|]. cbn [truthy].
  destruct (Py.contains separator (c :: line));
    [destruct (Py.split separator 2 (c :: line)) as [|a [|b [|d more]]]|];
    run; unfold strftime; cbn; eauto.
Qed.

Lemma nonblank_false_iff (raw : str) : nonblank raw = false <-> blank raw.
Proof. apply truthy_nil_iff. Qed.

(** The loop never raises; it appends one record for each line that is not
    blank, and reads no clock when every line is blank. *)
Lemma parse_lines_spec (clock : nat -> str) (lines : list str) :
  forall (logs : list LogRecord) (w : World),
  exists added w',
    parse_lines clock lines logs w = (inl (logs ++ added), w')
    /\ length added = length (List.filter nonblank lines)
    /\ (Forall blank lines -> w' = w).
Proof.
  induction lines as [|raw rest IH]; intros logs w; cbn [parse_lines].
  - exists [], w. rewrite app_nil_r. repeat split.
  - unfold bind. cbn [List.filter]. destruct (nonblank raw) eqn:N.
    + assert (NB : ~ blank raw).
      { intros B. apply nonblank_false_iff in B. congruence. }
      destruct (parse_line_record clock logs w NB) as (r & w1 & ->).
      destruct (IH (logs ++ [r]) w1) as (added & w' & -> & L & _).
      exists (r :: added), w'. rewrite <- app_assoc. repeat split.
      * cbn. now rewrite L.
      * intros F. inversion F; contradiction.
    + apply nonblank_false_iff in N.
      rewrite (parse_line_blank clock logs w N).
      destruct (IH logs w) as (added & w' & -> & L & U).
      exists added, w'. repeat split; [exact L|].
      intros F. inversion F; auto.
Qed.

Lemma filter_nonblank_nil (lines : list str) :
  List.filter nonblank lines = [] <-> Forall blank lines.
Proof.
  induction lines as [|raw rest IH]; cbn [List.filter].
  - split; auto.
  - destruct (nonblank raw) eqn:N.
    + split; [discriminate|]. intros F. inversion F as [|? ? B _].
      apply nonblank_false_iff in B. congruence.
    + rewrite IH. split; intros F.
      * constructor; [apply nonblank_false_iff, N|exact F].
      * inversion F; assumption.
Qed.

(** ** The made-up records *)

Lemma system_logs_result (clock : nat -> str) (w : World) :
  exists r1 r2 r3 w',
    system_logs clock w = (inl (Logs [r1; r2; r3]), w')
    /\ List.map level [r1; r2; r3] = placeholder_levels w
    /\ List.map timestamp [r1; r2; r3]
       = List.map clock [clock_reads w; S (clock_reads w); S (S (clock_reads w))].
Proof.
  unfold system_logs, placeholder_levels, running_logs, idle_logs. run.
  destruct (active_process w) as [p|].
  - destruct (is_live (obj p) w); unfold strftime; cbn;
      do 4 eexists; repeat split.
  - unfold strftime; cbn; do 4 eexists; repeat split.
Qed.

Lemma placeholder_levels_emit (e : Effect) (w : World) :
  placeholder_levels (emit e w) = placeholder_levels w.
Proof. reflexivity. Qed.

(** The answer once the file has given nothing. *)
Lemma respond_system_logs (clock : nat -> str) (w0 w : World) :
  placeholder_levels w = placeholder_levels w0 ->
  clock_reads w = clock_reads w0 ->
  exists r1 r2 r3 w',
    system_logs clock w = (inl (Logs [r1; r2; r3]), w')
    /\ List.map level [r1; r2; r3] = placeholder_levels w0
    /\ List.map timestamp [r1; r2; r3]
       = List.map clock [clock_reads w0; S (clock_reads w0); S (S (clock_reads w0))].
Proof.
  intros <- <-. apply system_logs_result.
Qed.

(** Nothing from the file: the answer is made up. *)
Lemma get_logs_falls_through (clock : nat -> str) (limit : Z) (env : LogsEnv)
  (w : World) :
  log_exists env = false
  \/ (log_exists env = true
      /\ exists contents,
           log_read env = Returns contents
           /\ fst (parse_lines clock (recent_lines limit (Py.readlines contents)) []
                     (emit (ReadLines log_file) (emit (PathExists log_file) w)))
              = inl []) ->
  exists r1 r2 r3,
    fst (get_logs clock limit env w) = Logs [r1; r2; r3]
    /\ List.map level [r1; r2; r3] = placeholder_levels w
    /\ List.map timestamp [r1; r2; r3]
       = List.map clock [clock_reads w; S (clock_reads w); S (S (clock_reads w))].
Proof.
  intros H. unfold get_logs, get_logs_try, tail_file.
  destruct H as [->|(-> & contents & -> & P)]; run.
  - destruct (respond_system_logs clock w (emit (PathExists log_file) w)
                eq_refl eq_refl) as (r1 & r2 & r3 & w' & -> & L & T).
    exists r1, r2, r3. auto.
  - destruct (parse_lines_spec clock (recent_lines limit (Py.readlines contents)) []
                (emit (ReadLines log_file) (emit (PathExists log_file) w)))
      as (added & w1 & E & Len & U).
    rewrite E in P |- *. cbn in P. injection P as ->. cbn [app truthy].
    assert (F : Forall blank (recent_lines limit (Py.readlines contents))).
    { apply filter_nonblank_nil. apply length_zero_iff_nil. now rewrite <- Len. }
    rewrite (U F).
    destruct (respond_system_logs clock w
                (emit (ReadLines log_file) (emit (PathExists log_file) w))
                eq_refl eq_refl) as (r1 & r2 & r3 & w' & -> & L & T).
    exists r1, r2, r3. auto.
Qed.

(** C7.  When there is no log file, or the file is read and its kept lines
    give no record, [get_logs] answers three records made up from the
    state of the slot: levels success, info, info when the worker in the
    slot is live, and info, info, success otherwise; each is stamped with
    a reading of the clock taken on the spot. *)
Theorem get_logs_placeholders (clock : nat -> str) (limit : Z) (env : LogsEnv)
  (w : World) :
  log_exists env = false
  \/ (log_exists env = true
      /\ exists contents,
           log_read env = Returns contents
           /\ fst (parse_lines clock (recent_lines limit (Py.readlines contents)) []
                     (emit (ReadLines log_file) (emit (PathExists log_file) w)))
              = inl []) ->
  exists r1 r2 r3,
    fst (get_logs clock limit env w) = Logs [r1; r2; r3]
    /\ List.map level [r1; r2; r3] = placeholder_levels w
    /\ List.map timestamp [r1; r2; r3]
       = List.map clock [clock_reads w; S (clock_reads w); S (S (clock_reads w))].
Proof. apply get_logs_falls_through. Qed.

(** ** Failures of the log tail *)

(** The outer [try] returns a ["logs"] answer or raises. *)
Lemma get_logs_try_outcome (clock : nat -> str) (limit : Z) (env : LogsEnv)
  (w : World) :
  (exists logs w', get_logs_try clock limit env w = (inl (Logs logs), w')
                   /\ logs <> [])
  \/ (exists e w', get_logs_try clock limit env w = (inr e, w')).
Proof.
  unfold get_logs_try, tail_file.
  destruct (log_exists env); run.
  - destruct (log_read env) as [contents|e]; run.
    + destruct (parse_lines_spec clock (recent_lines limit (Py.readlines contents)) []
                  (emit (ReadLines log_file) (emit (PathExists log_file) w)))
        as (added & w1 & -> & _ & _).
      cbn [app]. destruct added as [|r added]; cbn [truthy].
      * destruct (system_logs_result clock w1) as (r1 & r2 & r3 & w' & -> & _).
        left. do 2 eexists. split; [reflexivity|discriminate].
      * left. do 2 eexists. split; [reflexivity|discriminate].
    + destruct (log_console env) as [[]|e']; run.
      * destruct (system_logs_result clock
                    (emit Print (emit (ReadLines log_file)
                                   (emit (PathExists log_file) w))))
          as (r1 & r2 & r3 & w' & -> & _).
        left. do 2 eexists. split; [reflexivity|discriminate].
      * right. do 2 eexists. reflexivity.
  - destruct (system_logs_result clock (emit (PathExists log_file) w))
      as (r1 & r2 & r3 & w' & -> & _).
    left. do 2 eexists. split; [reflexivity|discriminate].
Qed.

(** C8.  [get_logs] always answers with a non-empty ["logs"] list, and no
    exception leaves it: when the body of its outer [try] raises, the
    answer is the one record of level error that carries the text of the
    exception. *)
Theorem get_logs_never_raises (clock : nat -> str) (limit : Z) (env : LogsEnv)
  (w : World) :
  (exists logs, fst (get_logs clock limit env w) = Logs logs /\ logs <> [])
  /\ (forall e w',
        get_logs_try clock limit env w = (inr e, w') ->
        fst (get_logs clock limit env w)
        = Logs [ {| timestamp := clock (clock_reads w');
                    level := error;
                    message := [10060%N] ++ Py.lit " Error obteniendo logs: "
                               ++ text e |} ]).
Proof.
  unfold get_logs, respond, catch, get_logs_except. split.
  - destruct (get_logs_try_outcome clock limit env w)
      as [(logs & w' & -> & N)|(e & w' & ->)].
    + exists logs. auto.
    + eexists. split; [reflexivity|discriminate].
  - intros e w' ->. reflexivity.
Qed.

(** ** The kept lines *)

Lemma recent_lines_zero (lines : list str) : recent_lines 0 lines = lines.
Proof.
  unfold recent_lines, Py.slice_from.
  destruct (Z.of_nat (length lines) >? 0)%Z; [|reflexivity].
  change (- 0 <? 0)%Z with false. cbv iota.
  rewrite Z.min_l by lia. reflexivity.
Qed.

(** For a limit of at least one the kept lines are the last [limit]. *)
Lemma recent_lines_positive (limit : Z) (lines : list str) :
  (1 <= limit)%Z ->
  recent_lines limit lines = skipn (length lines - Z.to_nat limit) lines
  /\ (Z.of_nat (length (recent_lines limit lines)) <= limit)%Z.
Proof.
  intros H. unfold recent_lines, Py.slice_from.
  destruct (Z.gtb_spec (Z.of_nat (length lines)) limit) as [G|G].
  - assert (E : (- limit <? 0)%Z = true) by (apply Z.ltb_lt; lia). rewrite E.
    replace (Z.to_nat (Z.max 0 (- limit + Z.of_nat (length lines))))
      with (length lines - Z.to_nat limit) by lia.
    split; [reflexivity|]. rewrite length_skipn. lia.
  - replace (length lines - Z.to_nat limit) with 0 by lia.
    split; [reflexivity|lia].
Qed.

(** C4 at a limit below one.  At [limit = 0] the guard [len(lines) > 0]
    holds and [lines[-0:]] is the whole list, so [get_logs] answers with a
    record for each of the two lines of the file, which is more than 0.  At
    [limit = -1] the guard holds as well and [lines[1:]] keeps the second
    line: one record. *)
Theorem limit_below_one_keeps_lines :
  fst (get_logs sample_clock 0 (file_holds two_line_file) initial)
  = Logs [ {| timestamp := Py.lit "2024-01-01T00:00:00"; level := info;
              message := Py.lit "hello" |};
           {| timestamp := sample_clock 0; level := info;
              message := Py.lit "garbage line" |} ]
  /\ fst (get_logs sample_clock (-1) (file_holds two_line_file) initial)
     = Logs [ {| timestamp := sample_clock 0; level := info;
                 message := Py.lit "garbage line" |} ].
Proof. split; vm_compute; reflexivity. Qed.

(** From a limit of one on, and whatever the file holds: the lines kept
    are the last [limit] lines, the loop makes at most [limit] records of
    them, and these are the answer as soon as there is one. *)
Lemma file_records_bounded (clock : nat -> str) (limit : Z) (env : LogsEnv)
  (contents : str) (w : World) :
  (1 <= limit)%Z ->
  log_exists env = true ->
  log_read env = Returns contents ->
  exists file_logs w1,
    parse_lines clock (recent_lines limit (Py.readlines contents)) []
      (emit (ReadLines log_file) (emit (PathExists log_file) w))
    = (inl file_logs, w1)
    /\ (Z.of_nat (length file_logs) <= limit)%Z
    /\ recent_lines limit (Py.readlines contents)
       = skipn (length (Py.readlines contents) - Z.to_nat limit)
           (Py.readlines contents)
    /\ (file_logs <> [] -> get_logs clock limit env w = (Logs file_logs, w1)).
Proof.
  intros H Hx Hr.
  destruct (parse_lines_spec clock (recent_lines limit (Py.readlines contents)) []
              (emit (ReadLines log_file) (emit (PathExists log_file) w)))
    as (added & w1 & E & L & _).
  cbn [app] in E. exists added, w1. split; [exact E|].
  destruct (recent_lines_positive (Py.readlines contents) H) as [K B].
  split; [|split; [exact K|]].
  - rewrite L.
    pose proof (filter_length_le nonblank
                  (recent_lines limit (Py.readlines contents))).
    lia.
  - intros N. unfold get_logs, get_logs_try, tail_file. rewrite Hx, Hr. run.
    rewrite E. destruct added; [contradiction|reflexivity].
Qed.

(** The example of the specification: the two-line file under a limit of
    ten. *)
Example get_logs_two_lines :
  fst (get_logs sample_clock 10 (file_holds two_line_file) initial)
  = Logs [ {| timestamp := Py.lit "2024-01-01T00:00:00"; level := info;
              message := Py.lit "hello" |};
           {| timestamp := sample_clock 0; level := info;
              message := Py.lit "garbage line" |} ].
Proof. vm_compute. reflexivity. Qed.

(** C10.  A kept line that is blank once stripped adds no record and
    reads no clock.  So when every kept line is blank the file gives
    nothing and the answer is the three made-up records.  From a limit of
    one on, the kept lines are the last [limit] lines of the file. *)
Theorem blank_lines_give_placeholders (clock : nat -> str) (limit : Z)
  (env : LogsEnv) (w : World) (contents : str) :
  (forall raw logs w0,
     blank raw -> parse_line clock raw logs w0 = (inl logs, w0))
  /\ (log_exists env = true ->
      log_read env = Returns contents ->
      Forall blank (recent_lines limit (Py.readlines contents)) ->
      exists r1 r2 r3,
        fst (get_logs clock limit env w) = Logs [r1; r2; r3]
        /\ List.map level [r1; r2; r3] = placeholder_levels w
        /\ List.map timestamp [r1; r2; r3]
           = List.map clock [clock_reads w; S (clock_reads w);
                             S (S (clock_reads w))])
  /\ ((1 <= limit)%Z ->
      recent_lines limit (Py.readlines contents)
      = skipn (length (Py.readlines contents) - Z.to_nat limit)
          (Py.readlines contents)).
Proof.
  split; [|split].
  - intros raw logs w0. apply parse_line_blank.
  - intros Hx Hr F. apply get_logs_falls_through. right.
    split; [exact Hx|]. exists contents. split; [exact Hr|].
    destruct (parse_lines_spec clock (recent_lines limit (Py.readlines contents)) []
                (emit (ReadLines log_file) (emit (PathExists log_file) w)))
      as (added & w1 & -> & L & _).
    apply filter_nonblank_nil in F. rewrite F in L.
    apply length_zero_iff_nil in L. rewrite L. reflexivity.
  - intros H. apply recent_lines_positive, H.
Qed.

(** ** Cutting a line *)

Lemma strip_prefix_some (sep s rest : str) :
  Py.strip_prefix sep s = Some rest <-> s = sep ++ rest.
Proof.
  revert s. induction sep as [|a sep IH]; intros s; cbn.
  - split; congruence.
  - destruct s as [|b s]; [split; discriminate|].
    destruct (N.eqb_spec a b) as [->|N].
    + rewrite IH. split; congruence.
    + split; [discriminate|]. intros [= -> _]. contradiction.
Qed.

Lemma partition_unfold (sep s : str) :
  Py.partition sep s
  = match Py.strip_prefix sep s with
    | Some rest => Some ([], rest)
    | None =>
        match s with
        | [] => None
        | c :: t =>
            match Py.partition sep t with
            | Some (a, b) => Some (c :: a, b)
            | None => None
            end
        end
    end.
Proof. destruct s; reflexivity. Qed.

(** [partition] cuts at an occurrence of the separator... *)
Lemma partition_some (sep s a b : str) :
  Py.partition sep s = Some (a, b) -> s = a ++ sep ++ b.
Proof.
  revert a. induction s as [|c t IH]; intros a; rewrite partition_unfold.
  - destruct (Py.strip_prefix sep []) as [rest|] eqn:E; [|discriminate].
    intros [= <- <-]. apply strip_prefix_some in E. exact E.
  - destruct (Py.strip_prefix sep (c :: t)) as [rest|] eqn:E.
    + intros [= <- <-]. apply strip_prefix_some in E. exact E.
    + destruct (Py.partition sep t) as [[a' b']|]; [|discriminate].
      intros [= <- <-]. cbn. f_equal. apply IH. reflexivity.
Qed.

(** ... the leftmost one ... *)
Lemma partition_leftmost (sep s a b : str) :
  Py.partition sep s = Some (a, b) ->
  forall a' b', s = a' ++ sep ++ b' -> length a <= length a'.
Proof.
  revert a. induction s as [|c t IH]; intros a; rewrite partition_unfold.
  - destruct (Py.strip_prefix sep []); [|discriminate].
    intros [= <- <-] a' b' _. cbn; lia.
  - destruct (Py.strip_prefix sep (c :: t)) as [rest|] eqn:E.
    + intros [= <- <-] a' b' _. cbn; lia.
    + destruct (Py.partition sep t) as [[a0 b0]|] eqn:P; [|discriminate].
      intros [= <- <-] a' b' H. destruct a' as [|c' a'].
      * cbn in H. apply strip_prefix_some in H. congruence.
      * cbn in H. injection H as _ H. cbn.
        apply le_n_S. exact (IH a0 eq_refl a' b' H).
Qed.

(** ... and finds one whenever there is one. *)
Lemma partition_none (sep s : str) :
  Py.partition sep s = None -> forall a b, s <> a ++ sep ++ b.
Proof.
  induction s as [|c t IH]; rewrite partition_unfold.
  - destruct (Py.strip_prefix sep []) as [rest|] eqn:E; [discriminate|].
    intros _ a b H. destruct a; cbn in H.
    + apply strip_prefix_some in H. congruence.
    + discriminate.
  - destruct (Py.strip_prefix sep (c :: t)) as [rest|] eqn:E; [discriminate|].
    destruct (Py.partition sep t) as [[a0 b0]|] eqn:P; [discriminate|].
    intros _ a b H. destruct a as [|c' a]; cbn in H.
    + apply strip_prefix_some in H. congruence.
    + injection H as _ H. exact (IH eq_refl a b H).
Qed.

Lemma split_length (sep : str) (maxsplit : nat) :
  forall s, 1 <= length (Py.split sep maxsplit s) <= S maxsplit.
Proof.
  induction maxsplit as [|k IH]; intros s; cbn [Py.split].
  - cbn; lia.
  - destruct (Py.partition sep s) as [[a rest]|]; cbn [length].
    + specialize (IH rest). lia.
    + lia.
Qed.

(** Three parts of a cut at two separators make up the line. *)
Lemma split_three (sep s a b c : str) :
  Py.split sep 2 s = [a; b; c] -> s = a ++ sep ++ b ++ sep ++ c.
Proof.
  cbn [Py.split].
  destruct (Py.partition sep s) as [[a0 rest]|] eqn:P1; [|discriminate].
  destruct (Py.partition sep rest) as [[b0 rest']|] eqn:P2; [|discriminate].
  intros [= <- <- <-].
  apply partition_some in P1, P2. now subst.
Qed.

(** With no separator in the line there is one part. *)
Lemma split_without_separator (sep s : str) (maxsplit : nat) :
  Py.contains sep s = false -> Py.split sep maxsplit s = [s].
Proof.
  unfold Py.contains. destruct maxsplit; cbn [Py.split]; [reflexivity|].
  destruct (Py.partition sep s) as [[a b]|]; [discriminate|reflexivity].
Qed.

(** ** The level of a line *)

Lemma map_level_by_spec (token : str) :
  map_level (Py.lower token) = level_by_spec token.
Proof.
  unfold map_level, level_by_spec, same_word, Py.mem. cbn [existsb].
  rewrite !orb_false_r.
  destruct (Py.eqb (Py.lower token) (Py.lit "info"));
    destruct (Py.eqb (Py.lower token) (Py.lit "debug"));
    destruct (Py.eqb (Py.lower token) (Py.lit "warn"));
    destruct (Py.eqb (Py.lower token) (Py.lit "warning"));
    destruct (Py.eqb (Py.lower token) (Py.lit "err"));
    destruct (Py.eqb (Py.lower token) (Py.lit "error"));
    destruct (Py.eqb (Py.lower token) (Py.lit "critical")); reflexivity.
Qed.

(** One separator only: two parts, and the line is kept whole. *)
Example one_separator_line :
  Py.split separator 2 (Py.lit "12:00 | started") = [Py.lit "12:00"; Py.lit "started"]
  /\ fst (parse_line sample_clock (Py.lit "  12:00 | started  " ++ [10%N]) [] initial)
     = inl [ {| timestamp := sample_clock 0; level := info;
                message := Py.lit "12:00 | started" |} ].
Proof. split; vm_compute; reflexivity. Qed.

Example level_of_tokens :
  List.map level_by_spec
    [Py.lit "INFO"; Py.lit "Debug"; Py.lit "WARN"; Py.lit "Warning";
     Py.lit "ERR"; Py.lit "error"; Py.lit "CRITICAL"; Py.lit "TRACE"; []]
  = [info; info; warning; warning; error; error; error; info; info].
Proof. vm_compute. reflexivity. Qed.

Lemma split_three_contains (sep s a b c : str) :
  Py.split sep 2 s = [a; b; c] -> Py.contains sep s = true.
Proof.
  unfold Py.contains. cbn [Py.split].
  destruct (Py.partition sep s) as [[a0 rest]|]; [reflexivity|discriminate].
Qed.

(** Lowering the token and comparing it with a word of small letters is
    the comparison letter by letter. *)
Lemma lower_caseless (word : str) :
  small_letters word ->
  forall token, Py.lower token = word <-> caseless token word = true.
Proof.
  unfold small_letters.
  intros W token. revert word W.
  induction token as [|c t IH]; intros word W.
  - destruct word; cbn; split; congruence.
  - destruct word as [|d word'].
    + cbn [caseless]. split; [|discriminate].
      unfold Py.lower. cbn [flat_map]. unfold Py.lower_char.
      destruct ((65 <=? c) && (c <=? 90))%N; [discriminate|].
      destruct (c =? 304)%N; [discriminate|].
      destruct (c =? 8490)%N; discriminate.
    + inversion W as [|? ? [R NK] W']; subst.
      specialize (IH word' W').
      cbn [caseless]. rewrite andb_true_iff, <- IH.
      change (Py.lower (c :: t)) with (Py.lower_char c ++ Py.lower t).
      unfold Py.lower_char, same_letter.
      destruct ((65 <=? c) && (c <=? 90))%N eqn:U.
      * cbn [app andb]. apply andb_true_iff in U as [U1 U2].
        apply N.leb_le in U1, U2.
        destruct (N.eqb_spec c d) as [->|_]; [lia|]. cbn [orb].
        rewrite N.eqb_eq. split.
        -- intros [= E1 E2]. auto.
        -- intros [-> ->]. reflexivity.
      * cbn [andb]. rewrite orb_false_r.
        destruct (N.eqb_spec c 304) as [->|N1].
        -- cbn [app]. split.
           ++ intros [= E1 E2]. destruct word' as [|d2 word'']; [discriminate|].
              injection E2 as E2 _. inversion W' as [|? ? [R2 _] _]; subst. lia.
           ++ intros [E _]. apply N.eqb_eq in E. lia.
        -- destruct (N.eqb_spec c 8490) as [->|N2].
           ++ cbn [app]. split.
              ** intros [= E1 E2]. congruence.
              ** intros [E _]. apply N.eqb_eq in E. lia.
           ++ cbn [app]. rewrite N.eqb_eq. split.
              ** intros [= E1 E2]. auto.
              ** intros [-> ->]. reflexivity.
Qed.

Lemma same_word_names (token : str) (word : string) :
  small_letters (Py.lit word) -> same_word token word = names token word.
Proof.
  intros W. unfold same_word, names, Py.eqb.
  pose proof (lower_caseless W token) as H.
  destruct (list_eq_dec N.eq_dec (Py.lower token) (Py.lit word)) as [E|NE];
    destruct (caseless token (Py.lit word)); try reflexivity.
  - apply H in E. discriminate.
  - destruct NE. apply H. reflexivity.
Qed.

Ltac small :=
  unfold small_letters; cbn;
  repeat (constructor; [split; [lia|discriminate]|]); constructor.

(** The level the code gives a token is the level of the table. *)
Lemma map_level_by_table (token : str) :
  map_level (Py.lower token) = level_by_table token.
Proof.
  rewrite map_level_by_spec. unfold level_by_spec, level_by_table.
  rewrite !same_word_names by small. reflexivity.
Qed.

(** The body of the inner [try] raises nothing. *)
Lemma parse_try_returns (clock : nat -> str) (line : str) (logs : list LogRecord)
  (w : World) :
  exists logs' w', parse_try clock line logs w = (inl logs', w').
Proof.
  unfold parse_try, raw_record.
  destruct (Py.contains separator line);
    [destruct (Py.split separator 2 line) as [|a [|b [|c more]]]|];
    run; unfold strftime; do 2 eexists; reflexivity.
Qed.

(** C6, as the code has it.  A kept line is stripped first.  When nothing
    is left it gives no record.  Otherwise, when the cut of the stripped
    line at its first two separators gives three parts, the record has the
    first as timestamp and the third as message, as they are, and the level
    the table gives the second, compared without regard to case; when the
    separator is absent from the stripped line or the cut gives fewer than
    three parts, the record is of level info, holds the stripped line as
    message and is stamped with a reading of the clock.  The body of the
    [try] never raises, so no record comes from the [except] branch. *)
Theorem kept_line_gives_record (clock : nat -> str) (raw : str)
  (logs : list LogRecord) (w : World) :
  (blank raw -> parse_line clock raw logs w = (inl logs, w))
  /\ (~ blank raw ->
      (forall ts token msg,
         Py.split separator 2 (Py.strip raw) = [ts; token; msg] ->
         Py.strip raw = ts ++ separator ++ token ++ separator ++ msg
         /\ parse_line clock raw logs w
            = (inl (logs ++ [ {| timestamp := ts; level := level_by_table token;
                                 message := msg |} ]), w))
      /\ (Py.contains separator (Py.strip raw) = false
          \/ length (Py.split separator 2 (Py.strip raw)) < 3 ->
          parse_line clock raw logs w
          = (inl (logs ++ [ {| timestamp := clock (clock_reads w);
                               level := info;
                               message := Py.strip raw |} ]),
             snd (strftime clock w))))
  /\ (forall line logs0 w0,
        exists logs' w',
          parse_try clock line logs0 w0 = (inl logs', w')
          /\ forall handler,
               catch (parse_try clock line logs0) handler w0 = (inl logs', w')).
Proof.
  unfold blank. split; [|split].
  - intros B. unfold parse_line. rewrite B. reflexivity.
  - intros NB.
    assert (T : truthy (Py.strip raw) = true).
    { destruct (Py.strip raw); [contradiction|reflexivity]. }
    split.
    + intros ts token msg S. pose proof (split_three_contains _ _ S) as C.
      split; [exact (split_three _ _ S)|].
      unfold parse_line, parse_try. rewrite T, C, S. run.
      rewrite map_level_by_table. reflexivity.
    + intros H. unfold parse_line, parse_try, raw_record. rewrite T.
      destruct (Py.contains separator (Py.strip raw)) eqn:C.
      * destruct H as [H|H]; [discriminate|].
        destruct (Py.split separator 2 (Py.strip raw)) as [|a [|b [|c more]]];
          try (cbn in H; lia); reflexivity.
      * reflexivity.
  - intros line logs0 w0.
    destruct (parse_try_returns clock line logs0 w0) as (logs' & w' & E).
    exists logs', w'. split; [exact E|].
    intros handler. unfold catch. rewrite E. reflexivity.
Qed.

(** C6 as stated fails on the line as it is kept.  A line written with an
    empty message contains the separator and is cut in three parts, the
    third being its line end, yet its record is the one of a line without
    the format: the stripped line has one separator left.  On a line with
    all three fields the third part of the kept line ends with the line
    end, which the message has not; and a kept line of white space only
    gives no record at all. *)
Lemma kept_line_is_stripped_first :
  Py.contains separator dangling_line = true
  /\ Py.split separator 2 dangling_line
     = [Py.lit "2024-01-01T00:00:00"; Py.lit "ERROR"; [10%N]]
  /\ level_by_table (Py.lit "ERROR") = error
  /\ parse_line sample_clock dangling_line [] initial
     = (inl [ {| timestamp := sample_clock 0; level := info;
                 message := Py.lit "2024-01-01T00:00:00 | ERROR |" |} ],
        snd (strftime sample_clock initial))
  /\ fst (parse_line sample_clock dangling_line [] initial)
     <> inl [ {| timestamp := Py.lit "2024-01-01T00:00:00"; level := error;
                 message := [10%N] |} ]
  /\ Py.split separator 2 structured_line
     = [Py.lit "2024-01-01T00:00:00"; Py.lit "INFO"; Py.lit "hello" ++ [10%N]]
  /\ fst (parse_line sample_clock structured_line [] initial)
     = inl [ {| timestamp := Py.lit "2024-01-01T00:00:00"; level := info;
                message := Py.lit "hello" |} ]
  /\ Py.contains separator [32; 10]%N = false
  /\ parse_line sample_clock [32; 10]%N [] initial = (inl [], initial).
Proof.
  repeat match goal with |- _ /\ _ => split end;
    try (vm_compute; reflexivity).
  vm_compute. discriminate.
Qed.

(** * The theorems at work *)

Example file_records_bounded_at_one :
  exists file_logs w1,
    parse_lines sample_clock (recent_lines 1 (Py.readlines two_line_file)) []
      (emit (ReadLines log_file) (emit (PathExists log_file) initial))
    = (inl file_logs, w1)
    /\ (Z.of_nat (length file_logs) <= 1)%Z
    /\ recent_lines 1 (Py.readlines two_line_file)
       = skipn (length (Py.readlines two_line_file) - Z.to_nat 1)
           (Py.readlines two_line_file)
    /\ (file_logs <> [] ->
        get_logs sample_clock 1 (file_holds two_line_file) initial
        = (Logs file_logs, w1)).
Proof.
  apply (@file_records_bounded sample_clock 1 (file_holds two_line_file)
           two_line_file initial).
  - lia.
  - reflexivity.
  - reflexivity.
Defined.

Lemma stop_strategy_escalates_witness :
  (fst (stop_strategy stubborn_child started_world) = Stopped
   /\ active_process (snd (stop_strategy stubborn_child started_world)) = None
   /\ trace (snd (stop_strategy stubborn_child started_world))
      = trace started_world
        ++ [SendSignal first_worker SIGINT; Sleep 2; Poll first_worker;
            SendSignal first_worker SIGTERM; Sleep 1; Poll first_worker;
            SendSignal first_worker SIGKILL]
   /\ is_live 0 (snd (stop_strategy stubborn_child started_world)) = false)
  /\ (fst (stop_strategy signal_denied started_world)
      = StopFailed (Py.lit "Operation not permitted")
      /\ active_process (snd (stop_strategy signal_denied started_world))
         = Some first_worker).
Proof.
  split.
  - exact (proj1 (@stop_strategy_escalates stubborn_child started_world
                    first_worker eq_refl) eq_refl).
  - exact (proj2 (@stop_strategy_escalates signal_denied started_world
                    first_worker eq_refl) _ eq_refl).
Defined.

Lemma start_refused_while_running_witness :
  start_strategy None (Returns 43%Z) started_world
  = (AlreadyRunning 42, emit (Poll first_worker) started_world)
  /\ start_strategy_post empty_post started_world
     = (AlreadyRunning 42, emit (Poll first_worker) started_world)
  /\ active_process (snd (start_strategy None (Returns 43%Z) stale_world))
     = Some {| obj := 1; pid := 43 |}
  /\ active_process (snd (start_strategy_post empty_post stale_world))
     = Some {| obj := 1; pid := 43 |}.
Proof.
  pose proof (@start_refused_while_running started_world first_worker eq_refl)
    as [A _].
  pose proof (@start_refused_while_running stale_world first_worker eq_refl)
    as [_ B].
  specialize (A eq_refl). specialize (B eq_refl). cbv zeta in B.
  destruct A as [A1 A2]. destruct B as [B1 B2].
  split; [exact (A1 None (Returns 43%Z))|].
  split; [exact (A2 empty_post)|].
  split.
  - exact (proj2 (proj2 (B1 None (Returns 43%Z))) 43%Z eq_refl).
  - exact (proj2 (proj2 (B2 empty_post) _ eq_refl (fun _ => eq_refl)) 43%Z
             eq_refl).
Defined.

Lemma reset_blocked_while_alive_witness :
  reset_strategy reset_succeeds started_world
  = (ResetBlocked, emit (Poll first_worker) started_world)
  /\ fst (reset_strategy reset_succeeds stale_world) <> ResetBlocked
  /\ fst (reset_strategy reset_succeeds stale_world)
     = fst (reset_strategy reset_succeeds (assign_active None stale_world)).
Proof.
  split.
  - exact (proj1 (reset_blocked_while_alive reset_succeeds started_world)
             first_worker eq_refl eq_refl).
  - destruct (proj2 (proj2 (reset_blocked_while_alive reset_succeeds stale_world))
                first_worker eq_refl eq_refl) as (A & B & _).
    exact (conj A B).
Defined.

Lemma health_check_keeps_slot_witness :
  fst (health_check None stale_world) = Health false (Some (None, false))
  /\ active_process (snd (health_check None stale_world)) = Some first_worker
  /\ active_process (snd (get_status (snd (health_check None stale_world))))
     = None.
Proof.
  exact (proj2 (health_check_keeps_slot None stale_world)
           first_worker eq_refl (or_introl eq_refl)).
Defined.

Lemma structured_line_not_blank : ~ blank structured_line.
Proof. unfold blank. vm_compute. discriminate. Defined.

Lemma kept_line_gives_record_witness :
  parse_line sample_clock structured_line [] initial
  = (inl [ {| timestamp := Py.lit "2024-01-01T00:00:00";
              level := level_by_table (Py.lit "INFO");
              message := Py.lit "hello" |} ], initial).
Proof.
  exact (proj2
           (proj1 (proj1 (proj2 (kept_line_gives_record sample_clock
                                   structured_line [] initial))
                     structured_line_not_blank)
              (Py.lit "2024-01-01T00:00:00") (Py.lit "INFO") (Py.lit "hello")
              eq_refl)).
Defined.

Lemma get_logs_placeholders_witness :
  exists r1 r2 r3,
    fst (get_logs sample_clock 10 no_file initial) = Logs [r1; r2; r3]
    /\ List.map level [r1; r2; r3] = [info; info; success]
    /\ List.map timestamp [r1; r2; r3]
       = [sample_clock 0; sample_clock 1; sample_clock 2].
Proof.
  exact (get_logs_placeholders sample_clock 10 no_file initial (or_introl eq_refl)).
Defined.

Lemma get_logs_never_raises_witness :
  fst (get_logs sample_clock 10 all_fails initial)
  = Logs [ {| timestamp := sample_clock 0; level := error;
              message := [10060%N] ++ Py.lit " Error obteniendo logs: "
                         ++ Py.lit "Broken pipe" |} ].
Proof.
  exact (proj2 (get_logs_never_raises sample_clock 10 all_fails initial)
           _ _ eq_refl).
Defined.

Lemma blank_file_lines_blank :
  Forall blank (recent_lines 10 (Py.readlines blank_file)).
Proof. repeat constructor. Defined.

Lemma blank_lines_give_placeholders_witness :
  exists r1 r2 r3,
    fst (get_logs sample_clock 10 (file_holds blank_file) initial)
    = Logs [r1; r2; r3]
    /\ List.map level [r1; r2; r3] = [info; info; success]
    /\ List.map timestamp [r1; r2; r3]
       = [sample_clock 0; sample_clock 1; sample_clock 2].
Proof.
  exact (proj1 (proj2 (blank_lines_give_placeholders sample_clock 10
                         (file_holds blank_file) initial blank_file))
           eq_refl eq_refl blank_file_lines_blank).
Defined.

(** * Further properties of the handlers *)

(** ** Stop, then what *)

(** A [Stopped] answer means a worker was in the slot, the slot is now
    empty and that worker is not live. *)
Lemma stop_strategy_stopped (env : StopEnv) (w : World) :
  fst (stop_strategy env w) = Stopped ->
  exists p, active_process w = Some p
            /\ active_process (snd (stop_strategy env w)) = None
            /\ is_live (obj p) (snd (stop_strategy env w)) = false.
Proof.
  unfold stop_strategy. run.
  destruct (active_process w) as [p|] eqn:Hp; [|discriminate].
  intros H. exists p. split; [reflexivity|]. revert H.
  destruct env as [o1 x2 o2 x1 o3]; cbn [on_sigint exits_within_2s on_terminate
                                          exits_within_1s on_kill].
  destruct (is_live (obj p) w) eqn:L;
    destruct o1 as [[]|e1]; destruct x2; destruct o2 as [[]|e2]; destruct x1;
    destruct o3 as [[]|e3];
    repeat (progress (settle; rewrite ?L, ?(is_live_exits_dead _ _ L)));
    intros H; try discriminate H; split; settle.
Qed.

(** X1.  Once [stop_strategy] has answered [Stopped], the worker that was
    in the slot is not live, [get_status] answers stopped without a probe,
    and another [stop_strategy] answers [NotRunning]; neither changes
    anything. *)
Theorem after_stop_nothing_runs (env : StopEnv) (w : World) :
  fst (stop_strategy env w) = Stopped ->
  (forall p, active_process w = Some p ->
     is_live (obj p) (snd (stop_strategy env w)) = false)
  /\ get_status (snd (stop_strategy env w))
     = (StatusStopped, snd (stop_strategy env w))
  /\ (forall env',
        stop_strategy env' (snd (stop_strategy env w))
        = (NotRunning, snd (stop_strategy env w))).
Proof.
  intros H. destruct (stop_strategy_stopped env w H) as (p & Hp & E & D).
  clear H. set (w' := snd (stop_strategy env w)) in *. clearbody w'.
  split; [|split].
  - intros q Hq. rewrite Hp in Hq. injection Hq as <-. exact D.
  - unfold get_status. run. rewrite E. reflexivity.
  - intros env'. unfold stop_strategy. run. rewrite E. reflexivity.
Qed.

Lemma after_stop_nothing_runs_witness :
  get_status (snd (stop_strategy stubborn_child started_world))
  = (StatusStopped, snd (stop_strategy stubborn_child started_world)).
Proof.
  exact (proj1 (proj2 (@after_stop_nothing_runs stubborn_child started_world
                         eq_refl))).
Defined.

(** ** What the answers of the start handlers mean *)

Lemma occupant_live_some (w : World) (p : Popen) :
  active_process w = Some p -> occupant_live w = is_live (obj p) w.
Proof. unfold occupant_live. intros ->. reflexivity. Qed.

Lemma occupant_live_none (w : World) :
  active_process w = None -> occupant_live w = false.
Proof. unfold occupant_live. intros ->. reflexivity. Qed.

(** X2.  Each answer of [start_strategy] tells what became of the slot.
    [Started n] is given only when [Popen] returned the child [n] and no
    live worker was in the slot; that child is then in the slot and live.
    [AlreadyRunning n] is given only for a live worker of pid [n] in the
    slot, and nothing but the probe was done.  The start-failed error is
    given only when [Popen] raised; the slot is then empty, also when it
    held an exited worker before.  No other answer is given. *)
Theorem start_strategy_answer (pairs : option str) (o : Outcome Z) (w : World) :
  match fst (start_strategy pairs o w) with
  | Started n sel =>
      o = Returns n /\ occupant_live w = false
      /\ active_process (snd (start_strategy pairs o w))
         = Some {| obj := created w; pid := n |}
      /\ live (snd (start_strategy pairs o w)) = created w :: live w
      /\ (sel = None <-> pairs = None \/ pairs = Some [])
  | AlreadyRunning n =>
      exists p, active_process w = Some p /\ pid p = n
                /\ is_live (obj p) w = true
                /\ snd (start_strategy pairs o w) = emit (Poll p) w
  | SpawnFailed e =>
      exists x, o = Throws x /\ text x = e /\ occupant_live w = false
                /\ active_process (snd (start_strategy pairs o w)) = None
                /\ live (snd (start_strategy pairs o w)) = live w
  | _ => False
  end.
Proof.
  assert (S : forall s : option str,
             match s with
             | Some s0 => if truthy s0 then Some (Py.split_all (Py.lit ",") s0)
                          else None
             | None => None
             end = None <-> s = None \/ s = Some []).
  { intros [[|c s]|]; cbn; split; auto; try discriminate.
    intros [H|H]; discriminate H. }
  unfold start_strategy. run.
  destruct (active_process w) as [p|] eqn:Hp.
  - rewrite (occupant_live_some w Hp).
    destruct (is_live (obj p) w) eqn:L; run.
    + exists p. auto.
    + destruct o as [n|x]; unfold popen_worker; cbn.
      * repeat split; try apply S; auto.
      * exists x. auto.
  - rewrite (occupant_live_none w Hp).
    destruct o as [n|x]; unfold popen_worker; cbn.
    + repeat split; try apply S; auto.
    + exists x. auto.
Qed.



(** A payload that is not of the expected types: [selectedPairs] is a
    string, and [['--pairs'] + "EURUSD"] raises at line 96, before [Popen].
    A payload that is no object at all but holds none of the keys, as the
    empty list, starts the worker with its defaults. *)
Example untyped_payloads :
  start_strategy_post (post_of (JObject [(Py.lit "selectedPairs",
                                          JString (Py.lit "EURUSD"))])) initial
  = (SpawnFailed (text (sample_raises NotAList)),
     emit Print (emit Print initial))
  /\ fst (start_strategy_post (post_of (JArray [])) initial)
     = StartedWith 43 (JArray [])
  /\ trace (snd (start_strategy_post (post_of (JArray [])) initial))
     = [Print; Print; Spawn python3_main]
  /\ fst (start_strategy_post (post_of (JInt 5)) initial)
     = SpawnFailed (text (sample_raises NotAContainer)).
Proof. repeat split. Qed.

(** A [print] of the [try] fails and the one of the [except] branch
    works: the answer is the start-failed error with what the [print]
    raised, after the calls of lines 89, 108 and 156 and without [Popen]. *)
Example failing_print :
  start_strategy_post unprintable_email initial
  = (SpawnFailed (Py.lit "surrogates not allowed"),
     emit Print (emit Print (emit Print initial))).
Proof. reflexivity. Qed.

(** ** The command line of the worker *)

Lemma partition_lengths (sep s a b : str) :
  Py.partition sep s = Some (a, b) ->
  length s = length a + length sep + length b.
Proof.
  intros H. apply partition_some in H. subst s. rewrite !length_app. lia.
Qed.

(** What [partition] leaves before the cut holds no separator. *)
Lemma partition_before_free (sep s a b : str) :
  sep <> [] -> Py.partition sep s = Some (a, b) -> free_of sep a.
Proof.
  intros NE P x y E.
  pose proof (partition_some _ _ P) as S.
  assert (L : length a <= length x).
  { apply (partition_leftmost _ P x (y ++ sep ++ b)).
    rewrite S, E, <- !app_assoc. reflexivity. }
  rewrite E, !length_app in L. destruct sep; [contradiction|cbn in L; lia].
Qed.

Lemma split_join (sep : str) (maxsplit : nat) :
  forall s, join sep (Py.split sep maxsplit s) = s.
Proof.
  induction maxsplit as [|k IH]; intros s; cbn [Py.split]; [reflexivity|].
  destruct (Py.partition sep s) as [[a rest]|] eqn:P; [|reflexivity].
  apply partition_some in P. specialize (IH rest).
  cbn [join]. destruct (Py.split sep k rest) as [|b more] eqn:E.
  - pose proof (split_length sep k rest) as L. rewrite E in L. cbn in L. lia.
  - rewrite IH. symmetry. exact P.
Qed.

(** With cuts to spare no part holds a separator. *)
Lemma split_parts_free (sep : str) (maxsplit : nat) :
  sep <> [] ->
  forall s, length s <= maxsplit ->
            Forall (free_of sep) (Py.split sep maxsplit s).
Proof.
  intros NE. induction maxsplit as [|k IH]; intros s L; cbn [Py.split].
  - constructor; [|constructor]. destruct s; [|cbn in L; lia].
    intros x y E. destruct sep; [contradiction|]. destruct x; discriminate E.
  - destruct (Py.partition sep s) as [[a rest]|] eqn:P.
    + constructor; [exact (@partition_before_free sep s a rest NE P)|].
      apply IH. apply partition_lengths in P.
      destruct sep; [contradiction|cbn in P; lia].
    + constructor; [|constructor]. exact (partition_none _ P).
Qed.

Lemma free_of_char (c : N) (s : str) :
  free_of [c] s -> has_char c s = false.
Proof.
  intros F. unfold has_char. destruct (existsb (N.eqb c) s) eqn:E; [|reflexivity].
  apply existsb_exists in E as (d & I & Q). apply N.eqb_eq in Q. subst d.
  apply in_split in I as (x & y & ->). exfalso. exact (F x y eq_refl).
Qed.

(** X4.  The command line [start_strategy] runs.  Without pairs, or with
    the empty string, it is [python3 main.py].  Otherwise it is
    [python3 main.py --pairs] followed by the pieces of the string between
    its commas: the pieces hold no comma and joined with commas give the
    string back. *)
Theorem start_strategy_command (pairs : option str) (o : Outcome Z) (w : World) :
  active_process w = None ->
  exists cmd,
    trace (snd (start_strategy pairs o w)) = trace w ++ [Spawn cmd]
    /\ match pairs with
       | Some (c :: s) =>
           exists parts,
             cmd = python3_main ++ Py.lit "--pairs" :: parts
             /\ join (Py.lit ",") parts = c :: s
             /\ Forall (fun part => has_char 44 part = false) parts
       | _ => cmd = python3_main
       end.
Proof.
  intros Hp. unfold start_strategy. run. rewrite Hp.
  destruct pairs as [[|c s]|]; cbn [truthy].
  - eexists. split; [destruct o; reflexivity|reflexivity].
  - eexists. split; [destruct o; reflexivity|].
    exists (Py.split_all (Py.lit ",") (c :: s)). split; [reflexivity|]. split.
    + apply split_join.
    + unfold Py.split_all.
      assert (F : Forall (free_of (Py.lit ","))
                    (Py.split (Py.lit ",") (length (c :: s)) (c :: s))).
      { apply split_parts_free; [discriminate|lia]. }
      revert F. apply Forall_impl. intros part. apply free_of_char.
  - eexists. split; [destruct o; reflexivity|reflexivity].
Qed.

Lemma start_strategy_command_witness :
  exists cmd,
    trace (snd (start_strategy (Some (Py.lit "NVDA/AMD,META/GOOGLE"))
                  (Returns 42%Z) initial))
    = [Spawn cmd]
    /\ exists parts,
         cmd = python3_main ++ Py.lit "--pairs" :: parts
         /\ join (Py.lit ",") parts = Py.lit "NVDA/AMD,META/GOOGLE"
         /\ Forall (fun part => has_char 44 part = false) parts.
Proof.
  exact (@start_strategy_command (Some (Py.lit "NVDA/AMD,META/GOOGLE"))
           (Returns 42%Z) initial eq_refl).
Defined.



(** ** Status *)

(** X6.  After [get_status] no exited worker is left in the slot: a worker
    still there is live, and it is the one reported as running.  Asked
    again at once, [get_status] gives the same answer and leaves the slot
    and the workers as they are. *)
Theorem get_status_settles (w : World) :
  (forall p, active_process (snd (get_status w)) = Some p ->
     is_live (obj p) (snd (get_status w)) = true
     /\ fst (get_status w) = StatusRunning (pid p))
  /\ (active_process (snd (get_status w)) = None ->
      fst (get_status w) = StatusStopped)
  /\ fst (get_status (snd (get_status w))) = fst (get_status w)
  /\ slot_state (snd (get_status (snd (get_status w))))
     = slot_state (snd (get_status w)).
Proof.
  unfold get_status, slot_state. run.
  destruct (active_process w) as [p|] eqn:Hp; run; rewrite ?Hp.
  - destruct (is_live (obj p) w) eqn:L;
      repeat (progress (settle; rewrite ?Hp, ?L)).
    + split; [intros q [= <-]; settle; auto|].
      split; [discriminate|]. split; settle.
    + split; [discriminate|]. auto.
  - split; [discriminate|]. cbn [fst snd]. rewrite Hp. auto.
Qed.

Lemma get_status_settles_witness :
  fst (get_status stale_world) = StatusStopped
  /\ fst (get_status started_world) = StatusRunning 42.
Proof.
  split.
  - exact (proj1 (proj2 (get_status_settles stale_world)) eq_refl).
  - exact (proj2 (proj1 (get_status_settles started_world) first_worker eq_refl)).
Defined.

(** ** Health under a race *)

(** X7.  The three probes of one [health_check] agree when the worker
    does not exit between them: the answer is running with the pid, or not
    running without.  When the worker exits after the first probe the
    answer says [strategy_running] and yet has no pid and [running] false;
    when it exits after the second, it has the pid and [running] false. *)
Theorem health_check_probes (w : World) (p : Popen) :
  active_process w = Some p ->
  fst (health_check None w)
  = Health (is_live (obj p) w)
      (Some (if is_live (obj p) w then Some (pid p) else None,
             is_live (obj p) w))
  /\ (is_live (obj p) w = true ->
      fst (health_check (Some 1) w) = Health true (Some (None, false))
      /\ fst (health_check (Some 2) w) = Health true (Some (Some (pid p), false))).
Proof.
  intros Hp. unfold health_check. run. rewrite Hp. split.
  - settle.
  - intros L. cbn [Nat.eqb]. settle. rewrite L. settle. rewrite ?L. auto.
Qed.

Lemma health_check_probes_witness :
  fst (health_check (Some 1) started_world) = Health true (Some (None, false))
  /\ fst (health_check (Some 2) started_world)
     = Health true (Some (Some 42%Z, false)).
Proof.
  exact (proj2 (@health_check_probes started_world first_worker eq_refl) eq_refl).
Defined.

(** ** Reset *)

(** X8.  [reset_strategy] always answers with one of its six
    dictionaries: no exception leaves it.  Whatever happens, it sends no
    signal to any process (the maintenance child is not killed when the
    wait for it times out) and calls [Popen] at most once. *)
Theorem reset_strategy_contained (env : ResetEnv) (w : World) :
  is_reset_answer (fst (reset_strategy env w))
  /\ exists done,
       trace (snd (reset_strategy env w)) = trace w ++ done
       /\ List.filter is_signal done = []
       /\ length (List.filter is_spawn done) <= 1.
Proof.
  unfold reset_strategy. run.
  destruct env as [found [n|[t1 [|]]] [[[so se] rc]|[t2 [|]]]];
    cbn [reset_exists reset_popen reset_communicate];
    (destruct (active_process w) as [p|]; [destruct (is_live (obj p) w)|]);
    destruct found; try destruct (rc =? 0)%Z;
    run; unfold popen_other; cbn -[reset_script auto_input Py.lit Py.strip];
    (split; [exact I|]);
    rewrite <- ?app_assoc; cbn [app];
    try (eexists; split; [reflexivity|split; [reflexivity|cbn; lia]]);
    exists []; rewrite app_nil_r; repeat split; cbn; lia.
Qed.

(** X9.  [reset_strategy] reports success exactly when no live worker is
    in the slot, the script exists, [Popen] started it and it ended with
    return code 0; the output reported is what it printed, stripped, or
    ["Reset completado"] when it printed nothing. *)
Theorem reset_done_iff (env : ResetEnv) (w : World) (out : str) :
  fst (reset_strategy env w) = ResetDone out
  <-> occupant_live w = false
      /\ reset_exists env = true
      /\ exists n stdout stderr,
           reset_popen env = Returns n
           /\ reset_communicate env = Returns (stdout, stderr, 0%Z)
           /\ out = if truthy stdout then Py.strip stdout
                    else Py.lit "Reset completado".
Proof.
  unfold reset_strategy, occupant_live. run.
  destruct env as [found [n|[t1 [|]]] [[[so se] rc]|[t2 [|]]]];
    cbn [reset_exists reset_popen reset_communicate];
    (destruct (active_process w) as [p|]; [destruct (is_live (obj p) w)|]);
    destruct found; try destruct (Z.eqb_spec rc 0); subst;
    run; unfold popen_other; cbn -[reset_script auto_input Py.lit Py.strip];
    (split;
     [ intros H; try discriminate H; injection H as <-;
       repeat split; do 3 eexists; repeat split
     | intros (A & B & m & x & y & C & D & E); try discriminate;
       try congruence;
       try (injection D as -> ->; subst out; reflexivity) ]).
Qed.

(** ** The log tail and the slot *)

(** X10.  [get_logs] leaves the slot and the workers as they are: it
    probes the worker in the slot but, unlike [get_status], does not take
    an exited one out. *)
Theorem get_logs_keeps_slot (clock : nat -> str) (limit : Z) (env : LogsEnv)
  (w : World) :
  slot_state (snd (get_logs clock limit env w)) = slot_state w
  /\ (forall p, active_process w = Some p -> is_live (obj p) w = false ->
        active_process (snd (get_logs clock limit env w)) = Some p
        /\ active_process (snd (get_status (snd (get_logs clock limit env w))))
           = None).
Proof.
  destruct (get_logs_undisturbed clock limit env w) as [E _].
  split; [exact E|]. intros p Hp L.
  unfold slot_state in E. injection E as Ea El.
  split; [congruence|].
  unfold get_status. run. rewrite Ea, Hp. run.
  unfold is_live in *. rewrite El, L. reflexivity.
Qed.

Lemma get_logs_keeps_slot_witness :
  active_process (snd (get_logs sample_clock 50 no_file stale_world))
  = Some first_worker
  /\ active_process
       (snd (get_status (snd (get_logs sample_clock 50 no_file stale_world))))
     = None.
Proof.
  exact (proj2 (get_logs_keeps_slot sample_clock 50 no_file stale_world)
           first_worker eq_refl eq_refl).
Defined.

(** ** File records, line by line *)

Lemma map_level_not_success (token : str) : map_level token <> success.
Proof.
  unfold map_level.
  destruct (Py.mem token [Py.lit "info"; Py.lit "debug"]); [discriminate|].
  destruct (Py.mem token [Py.lit "warn"; Py.lit "warning"]); [discriminate|].
  destruct (Py.mem token [Py.lit "err"; Py.lit "error"]); [discriminate|].
  destruct (Py.mem token [Py.lit "critical"]); discriminate.
Qed.

Lemma parse_line_from (clock : nat -> str) (raw : str) (logs : list LogRecord)
  (w : World) :
  nonblank raw = true ->
  exists r w', parse_line clock raw logs w = (inl (logs ++ [r]), w')
               /\ from_line raw r.
Proof.
  unfold nonblank, parse_line, parse_try, parse_except, raw_record, from_line.
  intros T. rewrite T.
  destruct (Py.contains separator (Py.strip raw)).
  - pose proof (split_length separator 2 (Py.strip raw)) as L.
    destruct (Py.split separator 2 (Py.strip raw)) as [|a [|b [|d more]]] eqn:S;
      run; unfold strftime; cbn -[separator].
    + do 2 eexists. split; [reflexivity|]. split; [exists []; reflexivity|discriminate].
    + do 2 eexists. split; [reflexivity|]. split; [exists []; reflexivity|discriminate].
    + do 2 eexists. split; [reflexivity|]. split; [exists []; reflexivity|discriminate].
    + destruct more; [|cbn in L; lia].
      apply split_three in S.
      do 2 eexists. split; [reflexivity|]. cbn [message level]. split.
      * exists (a ++ separator ++ b ++ separator).
        rewrite S at 1. rewrite <- !app_assoc. reflexivity.
      * apply map_level_not_success.
  - run; unfold strftime; cbn.
    do 2 eexists. split; [reflexivity|]. split; [exists []; reflexivity|discriminate].
Qed.

Lemma parse_lines_from (clock : nat -> str) (lines : list str) :
  forall (logs : list LogRecord) (w : World),
  exists added w',
    parse_lines clock lines logs w = (inl (logs ++ added), w')
    /\ Forall2 from_line (List.filter nonblank lines) added.
Proof.
  induction lines as [|raw rest IH]; intros logs w; cbn [parse_lines List.filter].
  - exists [], w. rewrite app_nil_r. split; [reflexivity|constructor].
  - unfold bind. destruct (nonblank raw) eqn:NB.
    + destruct (parse_line_from clock raw logs w NB) as (r & w1 & -> & F).
      destruct (IH (logs ++ [r]) w1) as (added & w' & -> & F').
      exists (r :: added), w'. rewrite <- app_assoc. split; [reflexivity|].
      constructor; assumption.
    + apply nonblank_false_iff in NB.
      rewrite (parse_line_blank clock logs w NB). apply IH.
Qed.

(** X11.  When the kept lines of a readable file are not all blank,
    [get_logs] answers with the records of the file and nothing made up:
    one record for each kept line that is not blank, in the order of the
    file, each holding the end of its line as message and never the level
    success. *)
Theorem file_records_follow_lines (clock : nat -> str) (limit : Z)
  (env : LogsEnv) (contents : str) (w : World) :
  log_exists env = true ->
  log_read env = Returns contents ->
  List.filter nonblank (recent_lines limit (Py.readlines contents)) <> [] ->
  exists logs,
    fst (get_logs clock limit env w) = Logs logs
    /\ Forall2 from_line
         (List.filter nonblank (recent_lines limit (Py.readlines contents)))
         logs.
Proof.
  intros Hx Hr NE. unfold get_logs, get_logs_try, tail_file. rewrite Hx, Hr. run.
  destruct (parse_lines_from clock (recent_lines limit (Py.readlines contents)) []
              (emit (ReadLines log_file) (emit (PathExists log_file) w)))
    as (added & w1 & -> & F).
  cbn [app]. exists added. split; [|exact F].
  destruct added; [inversion F; congruence|reflexivity].
Qed.

Lemma two_line_file_kept :
  List.filter nonblank (recent_lines 10 (Py.readlines two_line_file)) <> [].
Proof. vm_compute. discriminate. Defined.

Lemma file_records_follow_lines_witness :
  exists logs,
    fst (get_logs sample_clock 10 (file_holds two_line_file) initial) = Logs logs
    /\ Forall2 from_line
         (List.filter nonblank (recent_lines 10 (Py.readlines two_line_file)))
         logs.
Proof.
  exact (@file_records_follow_lines sample_clock 10 (file_holds two_line_file)
           two_line_file initial eq_refl eq_refl two_line_file_kept).
Defined.

(** ** Lines as the worker writes them *)

Lemma lstrip_solid (s : str) : starts_solid s -> Py.lstrip s = s.
Proof. intros (c & t & -> & H). cbn. rewrite H. reflexivity. Qed.

Lemma lstrip_spaces (a b : str) :
  forallb Py.isspace a = true -> Py.lstrip (a ++ b) = Py.lstrip b.
Proof.
  induction a as [|c a IH]; [reflexivity|]. cbn [forallb app Py.lstrip].
  intros H. apply andb_true_iff in H as [Hc Ha]. rewrite Hc. auto.
Qed.

Lemma rstrip_solid (s : str) : ends_solid s -> Py.rstrip s = s.
Proof.
  intros (t & c & -> & H). unfold Py.rstrip. rewrite rev_app_distr. cbn.
  rewrite H. cbn. rewrite rev_involutive. reflexivity.
Qed.

Lemma rstrip_spaces (a b : str) :
  forallb Py.isspace b = true -> Py.rstrip (a ++ b) = Py.rstrip a.
Proof.
  intros H. unfold Py.rstrip. rewrite rev_app_distr, lstrip_spaces; [reflexivity|].
  rewrite forallb_forall in *. intros x I. apply H, in_rev, I.
Qed.

Lemma has_char_cons (c d : N) (s : str) :
  has_char c (d :: s) = false -> c <> d /\ has_char c s = false.
Proof.
  unfold has_char. cbn [existsb]. intros H. apply orb_false_iff in H as [E R].
  split; [apply N.eqb_neq, E|exact R].
Qed.

(** No separator starts inside a text without ["|"] that is followed by a
    space. *)
Lemma no_separator_at (a rest : str) (c : N) :
  has_char 124 (c :: a) = false ->
  Py.strip_prefix separator (c :: a ++ 32%N :: rest) = None.
Proof.
  intros H. apply has_char_cons in H as [Hc Ha].
  destruct (Py.strip_prefix separator (c :: a ++ 32%N :: rest)) as [r|] eqn:E;
    [|reflexivity].
  apply strip_prefix_some in E. exfalso.
  destruct a as [|d a]; cbn in E.
  - injection E as _ E _. discriminate E.
  - apply has_char_cons in Ha as [Hd _]. injection E as _ E _. congruence.
Qed.

(** The first cut of a line is after its first field when that field
    holds no ["|"]. *)
Lemma partition_first_field (a rest : str) :
  has_char 124 a = false ->
  Py.partition separator (a ++ separator ++ rest) = Some (a, rest).
Proof.
  induction a as [|c a IH]; intros H; rewrite partition_unfold.
  - replace (Py.strip_prefix separator ([] ++ separator ++ rest)) with (Some rest);
      [reflexivity|].
    symmetry. apply strip_prefix_some. reflexivity.
  - change ((c :: a) ++ separator ++ rest)
      with (c :: a ++ 32%N :: ([124%N; 32%N] ++ rest)).
    rewrite no_separator_at by exact H.
    change (a ++ 32%N :: ([124%N; 32%N] ++ rest)) with (a ++ separator ++ rest).
    apply has_char_cons in H as [_ Ha]. rewrite (IH Ha). reflexivity.
Qed.

(** A field without ["|"] followed by [" |"] at the end of the line holds
    no separator. *)
Lemma partition_dangling_bar (a : str) :
  has_char 124 a = false ->
  Py.partition separator (a ++ [32%N; 124%N]) = None.
Proof.
  induction a as [|c a IH]; intros H; [reflexivity|].
  rewrite partition_unfold.
  change ((c :: a) ++ [32%N; 124%N]) with (c :: a ++ 32%N :: [124%N]).
  rewrite no_separator_at by exact H.
  change (a ++ 32%N :: [124%N]) with (a ++ [32%N; 124%N]).
  apply has_char_cons in H as [_ Ha]. rewrite (IH Ha). reflexivity.
Qed.

Lemma strip_written (body : str) (ws : str) :
  starts_solid body -> ends_solid body -> forallb Py.isspace ws = true ->
  Py.strip (body ++ ws) = body.
Proof.
  intros S E W. unfold Py.strip.
  rewrite lstrip_solid.
  - rewrite rstrip_spaces by exact W. apply rstrip_solid, E.
  - destruct S as (c & t & -> & H). exists c, (t ++ ws). auto.
Qed.

(** X12.  A line the worker writes as ["TIMESTAMP | LEVEL | MESSAGE"] is
    read back field by field: when the timestamp and the level hold no
    ["|"], the timestamp does not start and the message does not end with
    white space, the record has that timestamp, the level of the table and
    that message, further separators in the message included, and no
    clock is read. *)
Theorem written_line_read_back (clock : nat -> str) (ts token msg : str)
  (logs : list LogRecord) (w : World) :
  has_char 124 ts = false ->
  has_char 124 token = false ->
  starts_solid ts ->
  ends_solid msg ->
  parse_line clock (written_line ts token msg) logs w
  = (inl (logs ++ [ {| timestamp := ts; level := level_by_spec token;
                       message := msg |} ]), w).
Proof.
  intros Hts Htok S E.
  assert (St : Py.strip (written_line ts token msg)
               = ts ++ separator ++ token ++ separator ++ msg).
  { unfold written_line.
    replace (ts ++ separator ++ token ++ separator ++ msg ++ [10%N])
      with ((ts ++ separator ++ token ++ separator ++ msg) ++ [10%N])
      by (rewrite <- !app_assoc; reflexivity).
    apply strip_written; [| |reflexivity].
    - destruct S as (c & t & -> & H). exists c. eexists. split; [reflexivity|exact H].
    - destruct E as (t & c & -> & H).
      exists (ts ++ separator ++ token ++ separator ++ t), c.
      split; [rewrite <- !app_assoc; reflexivity|exact H]. }
  assert (Sp : Py.split separator 2 (ts ++ separator ++ token ++ separator ++ msg)
               = [ts; token; msg]).
  { cbn [Py.split]. rewrite partition_first_field by exact Hts.
    rewrite partition_first_field by exact Htok. reflexivity. }
  unfold parse_line, parse_try. rewrite St.
  destruct S as (c & t & -> & H). cbn [app truthy].
  change (c :: t ++ separator ++ token ++ separator ++ msg)
    with ((c :: t) ++ separator ++ token ++ separator ++ msg).
  rewrite (split_three_contains _ _ Sp), Sp. run.
  rewrite map_level_by_spec. reflexivity.
Qed.

Lemma written_line_read_back_witness :
  parse_line sample_clock
    (written_line (Py.lit "2024-01-01T00:00:00") (Py.lit "ERROR")
       (Py.lit "order | rejected")) [] initial
  = (inl [ {| timestamp := Py.lit "2024-01-01T00:00:00";
              level := level_by_spec (Py.lit "ERROR");
              message := Py.lit "order | rejected" |} ], initial).
Proof.
  apply (@written_line_read_back sample_clock (Py.lit "2024-01-01T00:00:00")
           (Py.lit "ERROR") (Py.lit "order | rejected") [] initial).
  - reflexivity.
  - reflexivity.
  - exists 50%N, (Py.lit "024-01-01T00:00:00"). split; reflexivity.
  - exists (Py.lit "order | rejecte"), 100%N. split; reflexivity.
Defined.

(** X13.  A written line whose message is empty or white space only
    loses its fields: stripping takes the space after the second ["|"]
    away, the cut finds one separator only, and the line comes back whole
    as a record of level info stamped with the clock, whatever its own
    level and timestamp were. *)
Theorem empty_message_loses_level (clock : nat -> str) (ts token ws : str)
  (logs : list LogRecord) (w : World) :
  has_char 124 ts = false ->
  has_char 124 token = false ->
  starts_solid ts ->
  forallb Py.isspace ws = true ->
  fst (parse_line clock (written_line ts token ws) logs w)
  = inl (logs ++ [ {| timestamp := clock (clock_reads w); level := info;
                      message := ts ++ separator ++ token ++ [32%N; 124%N] |} ]).
Proof.
  intros Hts Htok S W.
  assert (St : Py.strip (written_line ts token ws)
               = ts ++ separator ++ token ++ [32%N; 124%N]).
  { unfold written_line.
    replace (ts ++ separator ++ token ++ separator ++ ws ++ [10%N])
      with ((ts ++ separator ++ token ++ [32%N; 124%N]) ++ (32%N :: ws ++ [10%N]))
      by (rewrite <- !app_assoc; reflexivity).
    apply strip_written.
    - destruct S as (c & t & -> & H). exists c. eexists. split; [reflexivity|exact H].
    - exists (ts ++ separator ++ token ++ [32%N]), 124%N.
      split; [rewrite <- !app_assoc; reflexivity|reflexivity].
    - cbn [forallb]. rewrite forallb_app, W. reflexivity. }
  assert (Sp : Py.split separator 2 (ts ++ separator ++ token ++ [32%N; 124%N])
               = [ts; token ++ [32%N; 124%N]]).
  { cbn [Py.split]. rewrite partition_first_field by exact Hts.
    rewrite partition_dangling_bar by exact Htok. reflexivity. }
  assert (C : Py.contains separator (ts ++ separator ++ token ++ [32%N; 124%N])
              = true).
  { unfold Py.contains. rewrite partition_first_field by exact Hts. reflexivity. }
  unfold parse_line, parse_try, raw_record. rewrite St.
  destruct S as (c & t & -> & H). cbn [app truthy].
  change (c :: t ++ separator ++ token ++ [32%N; 124%N])
    with ((c :: t) ++ separator ++ token ++ [32%N; 124%N]).
  rewrite C, Sp. reflexivity.
Qed.

Lemma empty_message_loses_level_witness :
  fst (parse_line sample_clock
         (written_line (Py.lit "2024-01-01T00:00:00") (Py.lit "ERROR") [])
         [] initial)
  = inl [ {| timestamp := sample_clock 0; level := info;
             message := Py.lit "2024-01-01T00:00:00 | ERROR |" |} ].
Proof.
  apply (@empty_message_loses_level sample_clock (Py.lit "2024-01-01T00:00:00")
           (Py.lit "ERROR") [] [] initial).
  - reflexivity.
  - reflexivity.
  - exists 50%N, (Py.lit "024-01-01T00:00:00"). split; reflexivity.
  - reflexivity.
Defined.

(** ** The window below a limit of one *)

(** X14.  With a limit of zero or less the expression that picks the
    lines does not keep the last lines: it drops the first [-limit] lines
    of the file and keeps all the others, the whole file at zero. *)
Theorem recent_lines_nonpositive (limit : Z) (lines : list str) :
  (limit <= 0)%Z ->
  recent_lines limit lines = skipn (Z.to_nat (- limit)) lines.
Proof.
  intros H. unfold recent_lines, Py.slice_from.
  destruct (Z.gtb_spec (Z.of_nat (length lines)) limit) as [G|G].
  - assert (E : (- limit <? 0)%Z = false) by (apply Z.ltb_ge; lia). rewrite E.
    destruct (Z.le_ge_cases (- limit) (Z.of_nat (length lines))) as [A|A].
    + rewrite Z.min_l by exact A. reflexivity.
    + rewrite Z.min_r by lia. rewrite Nat2Z.id.
      rewrite !skipn_all2; [reflexivity|lia|lia].
  - assert (length lines = 0) by lia.
    destruct lines; [|discriminate]. now rewrite skipn_nil.
Qed.

Lemma recent_lines_nonpositive_witness :
  recent_lines (-1) (Py.readlines two_line_file)
  = skipn 1 (Py.readlines two_line_file).
Proof.
  apply (@recent_lines_nonpositive (-1) (Py.readlines two_line_file)). lia.
Defined.

(** ** A file that cannot be read *)

Lemma system_logs_trace (clock : nat -> str) (w : World) :
  exists more r w',
    system_logs clock w = (inl r, w') /\ trace w' = trace w ++ more.
Proof.
  unfold system_logs, running_logs, idle_logs. run.
  destruct (active_process w) as [p|]; [destruct (is_live (obj p) w)|];
    unfold strftime; cbn [fst snd trace clock_reads active_process live created];
    autorewrite with world; do 3 eexists; (split; reflexivity).
Qed.

(** X15.  When the log file is there but opening or reading it raises,
    and the console takes the message, the failure is printed and not
    reported: the answer is the three made-up records for the state of the
    slot, as if there were no file. *)
Theorem unreadable_file_gives_placeholders (clock : nat -> str) (limit : Z)
  (env : LogsEnv) (w : World) (e : Exc) :
  log_exists env = true ->
  log_read env = Throws e ->
  log_console env = Returns tt ->
  exists r1 r2 r3 more,
    fst (get_logs clock limit env w) = Logs [r1; r2; r3]
    /\ List.map level [r1; r2; r3] = placeholder_levels w
    /\ List.map timestamp [r1; r2; r3]
       = List.map clock [clock_reads w; S (clock_reads w); S (S (clock_reads w))]
    /\ trace (snd (get_logs clock limit env w))
       = trace w ++ [PathExists log_file; ReadLines log_file; Print] ++ more.
Proof.
  intros Hx Hr Hc. unfold get_logs, get_logs_try, tail_file.
  rewrite Hx, Hr, Hc. run.
  set (w1 := emit Print (emit (ReadLines log_file) (emit (PathExists log_file) w))).
  destruct (system_logs_trace clock w1) as (more & r & w' & E & Tr).
  destruct (respond_system_logs clock w w1 eq_refl eq_refl)
    as (r1 & r2 & r3 & w'' & E' & L & Ts).
  rewrite E in E'. injection E' as -> <-. rewrite E. cbn [fst snd].
  exists r1, r2, r3, more. repeat split; auto.
  rewrite Tr. unfold w1. settle.
Qed.

Lemma unreadable_file_gives_placeholders_witness :
  exists r1 r2 r3 more,
    fst (get_logs sample_clock 50 unreadable initial) = Logs [r1; r2; r3]
    /\ List.map level [r1; r2; r3] = [info; info; success]
    /\ List.map timestamp [r1; r2; r3]
       = [sample_clock 0; sample_clock 1; sample_clock 2]
    /\ trace (snd (get_logs sample_clock 50 unreadable initial))
       = [PathExists log_file; ReadLines log_file; Print] ++ more.
Proof.
  exact (@unreadable_file_gives_placeholders sample_clock 50 unreadable initial
           _ eq_refl eq_refl eq_refl).
Defined.


Lemma reset_done_iff_witness :
  fst (reset_strategy reset_succeeds stale_world)
  = ResetDone (Py.lit "Reset completado").
Proof.
  apply (proj2 (reset_done_iff reset_succeeds stale_world
                  (Py.lit "Reset completado"))).
  split; [reflexivity|]. split; [reflexivity|].
  exists 7%Z, [], []. repeat split.
Defined.

(** ** Stop and start again *)

Lemma created_stop_strategy (env : StopEnv) (w : World) :
  created (snd (stop_strategy env w)) = created w.
Proof.
  unfold stop_strategy. run.
  destruct (active_process w) as [p|]; [|reflexivity].
  destruct env as [o1 x2 o2 x1 o3]; cbn [on_sigint exits_within_2s on_terminate
                                          exits_within_1s on_kill].
  destruct o1 as [[]|e1]; destruct x2; destruct o2 as [[]|e2]; destruct x1;
    destruct o3 as [[]|e3]; run;
    repeat match goal with
           | |- context [if ?b then _ else _] => destruct b; run
           end; reflexivity.
Qed.

(** X16.  A stop that answered [Stopped] never stands in the way of the
    next start: [start_strategy] then calls [Popen] without a probe, and
    when [Popen] returns a child it answers [Started] with its pid and
    puts it in the slot. *)
Theorem start_after_stop (env : StopEnv) (w : World) (pairs : option str)
  (n : Z) :
  fst (stop_strategy env w) = Stopped ->
  (exists sel,
     fst (start_strategy pairs (Returns n) (snd (stop_strategy env w)))
     = Started n sel)
  /\ active_process
       (snd (start_strategy pairs (Returns n) (snd (stop_strategy env w))))
     = Some {| obj := created w; pid := n |}
  /\ is_live (created w)
       (snd (start_strategy pairs (Returns n) (snd (stop_strategy env w))))
     = true
  /\ exists cmd,
       trace (snd (start_strategy pairs (Returns n) (snd (stop_strategy env w))))
       = trace (snd (stop_strategy env w)) ++ [Spawn cmd].
Proof.
  intros H. destruct (stop_strategy_stopped env w H) as (p & _ & E & _).
  pose proof (created_stop_strategy env w) as C. clear H.
  set (w' := snd (stop_strategy env w)) in *. clearbody w'.
  unfold start_strategy. run. rewrite E. run. unfold popen_worker.
  cbn [fst snd active_process live created pid obj trace assign_active emit].
  rewrite C. repeat split.
  - eexists. reflexivity.
  - unfold is_live, assign_active. cbn [live existsb].
    rewrite Nat.eqb_refl. reflexivity.
  - eexists. reflexivity.
Qed.

Lemma start_after_stop_witness :
  active_process
    (snd (start_strategy None (Returns 77%Z)
            (snd (stop_strategy stubborn_child started_world))))
  = Some {| obj := 1; pid := 77 |}.
Proof.
  exact (proj1 (proj2 (@start_after_stop stubborn_child started_world None 77%Z
                         eq_refl))).
Defined.

(** ** How long a stop waits *)

Lemma seconds_slept_app (t1 t2 : list Effect) :
  seconds_slept (t1 ++ t2) = seconds_slept t1 + seconds_slept t2.
Proof.
  induction t1 as [|e t1 IH]; [reflexivity|].
  destruct e; cbn [app seconds_slept]; rewrite IH; lia.
Qed.

(** X17.  [stop_strategy] sleeps 0, 2 or 3 seconds, never more.  It does
    not sleep when the slot is empty; it sleeps the first 2 seconds in full
    whenever it answers [Stopped], also when the worker had exited before
    the call; it sleeps 3 only when the worker was live and did not exit
    within the first 2. *)
Theorem stop_strategy_waits (env : StopEnv) (w : World) :
  exists d,
    seconds_slept (trace (snd (stop_strategy env w)))
    = seconds_slept (trace w) + d
    /\ (d = 0 \/ d = 2 \/ d = 3)
    /\ (active_process w = None -> d = 0)
    /\ (fst (stop_strategy env w) = Stopped -> 2 <= d)
    /\ (d = 3 -> occupant_live w = true /\ exits_within_2s env = false).
Proof.
  unfold stop_strategy, occupant_live. run.
  destruct (active_process w) as [p|] eqn:Hp.
  2:{ exists 0. cbn [fst snd]. repeat split; try lia; auto; discriminate. }
  destruct env as [o1 x2 o2 x1 o3]; cbn [on_sigint exits_within_2s on_terminate
                                          exits_within_1s on_kill].
  destruct (is_live (obj p) w) eqn:L;
    destruct o1 as [[]|e1]; destruct x2; destruct o2 as [[]|e2]; destruct x1;
    destruct o3 as [[]|e3];
    repeat (progress (settle; rewrite ?L, ?(is_live_exits_dead _ _ L)));
    rewrite ?seconds_slept_app; cbn [seconds_slept Nat.add];
    eexists; (split; [reflexivity|]);
    repeat split; try lia; try discriminate; auto; intros; try lia;
    try discriminate.
Qed.

(** ** The command line of the dashboard *)







Lemma stop_strategy_waits_witness :
  exists d,
    seconds_slept (trace (snd (stop_strategy stubborn_child started_world)))
    = seconds_slept (trace started_world) + d
    /\ (d = 0 \/ d = 2 \/ d = 3)
    /\ (active_process started_world = None -> d = 0)
    /\ (fst (stop_strategy stubborn_child started_world) = Stopped -> 2 <= d)
    /\ (d = 3 -> occupant_live started_world = true
                 /\ exits_within_2s stubborn_child = false).
Proof. exact (stop_strategy_waits stubborn_child started_world). Defined.
